(** * AXAU15 + ADC08DJ5200RF target: JESD204B bring-up orchestration

    Shallow embedding of [axau15_adc08dj5200rf.py] (the [_CRG] class and the
    JESD204B part of [BaseSoC.__init__]) and the properties of its clocking,
    lane bring-up, reset, lane ordering and link status logic.

    Conventions of the embedding:
    - a Python [float] is a binary64 primitive float;
    - a Python [int] used as a list index is a [Z], a length or a [range]
      counter is a [nat];
    - a one bit Migen [Signal()] carries a [bool]; Migen expressions are kept
      as syntax ([Expr]) and given their value by [eval];
    - the constructor runs in a state and exception monad over the hardware
      description built so far ([Design]): [self.specials += ...],
      [self.comb += ...], [self.submodules.x = ...] and the platform calls
      are state updates, [raise] and a failing list index are exceptions;
    - the DDR4, PCIe, LED and [SoCCore.__init__] parts of [BaseSoC] take no
      part in the JESD204B logic and are not embedded. *)

From Stdlib Require Import Floats.PrimFloat Floats.FloatOps Floats.SpecFloat.
From Stdlib Require Import ZArith QArith Lia Permutation Uint63.
From stdpp Require Import list strings pretty gmap.

Local Open Scope string_scope.

(** ** Signals and expressions *)

(** The signals the file names.  A transceiver object is identified by the
    [n] attribute the target gives it ([jesd_phy.n = i]). *)
Inductive Signal : Type :=
| tx_init_done (n : nat)            (* jesd_phys[n].tx_init.done *)
| rx_init_done (n : nat)            (* jesd_phys[n].rx_init.done *)
| cd_tx_clk (n : nat)               (* jesd_phys[n].cd_tx.clk *)
| cd_rx_clk (n : nat)               (* jesd_phys[n].cd_rx.clk *)
| rx_core_enable                    (* self.jesd_rx_core.enable *)
| rx_core_jsync                     (* self.jesd_rx_core.jsync *)
| jesd_link_status                  (* self.jesd_link_status *)
| refclk
| refclk_div2
| sysref
| crg_rst                           (* _CRG.rst *)
| pll_locked (pll : string)         (* <pll>.locked *)
| pll_reset (pll : string)          (* <pll>.reset *)
| pll_clkin (pll : string)          (* <pll>.clkin *)
| ClockSignal (cd : string)
| pad (name : string) (number : nat) (subsignal : string).

Inductive Expr : Type :=
| Sig (s : Signal)
| Constant (v : Z)
| And (a b : Expr)                  (* a & b *)
| Not (a : Expr).                   (* ~a *)

#[global] Instance Signal_eq_dec : EqDecision Signal.
Proof. solve_decision. Defined.
#[global] Instance Expr_eq_dec : EqDecision Expr.
Proof. solve_decision. Defined.

(** Value of a one bit expression under a valuation of the signals. *)
Fixpoint eval (env : Signal -> bool) (e : Expr) : bool :=
  match e with
  | Sig s => env s
  | Constant v => Z.odd v
  | And a b => eval env a && eval env b
  | Not a => negb (eval env a)
  end.

(** [operator.and_] on Migen values. *)
Definition and_ (a b : Expr) : Expr := And a b.

(** [functools.reduce(function, sequence)] without initial value: [None]
    stands for the [TypeError] Python raises on an empty sequence. *)
Definition reduce {A : Type} (f : A -> A -> A) (l : list A) : option A :=
  match l with
  | [] => None
  | x :: xs => Some (fold_left f xs x)
  end.

(** Python list subscript [l[i]]: a negative index counts from the end,
    [None] stands for [IndexError]. *)
Definition py_getitem {A : Type} (l : list A) (i : Z) : option A :=
  if (0 <=? i)%Z then l !! Z.to_nat i
  else if (- Z.of_nat (length l) <=? i)%Z
       then l !! Z.to_nat (Z.of_nat (length l) + i)
       else None.

(** ** Hardware description objects *)

Inductive Constraint : Type :=
| Subsignal (name : string) (pins : string) (iostandard : option string)
| Pins (pins : string)
| IOStandard (std : string).

Record Resource : Type := mkResource {
  res_name : string;
  res_number : nat;
  res_constraints : list Constraint
}.

Module JESD204BPhysicalSettings.
Record t : Type := mk { l : Z; m : Z; n : Z; np : Z }.
End JESD204BPhysicalSettings.

Module JESD204BTransportSettings.
Record t : Type := mk { f : Z; s : Z; k : Z; cs : Z }.
End JESD204BTransportSettings.

Module JESD204BSettings.
Record t : Type := mk {
  phy_settings : JESD204BPhysicalSettings.t;
  transport_settings : JESD204BTransportSettings.t;
  did : Z;
  bid : Z;
  framing : bool;
  scrambling : bool
}.
End JESD204BSettings.

(** A [GTH4] transceiver as this file constructs it. *)
Module GTH4.
Record t : Type := mk {
  tx_pads : Resource;
  rx_pads : Resource;
  sys_clk_freq : float;
  data_width : Z;
  clock_aligner : bool;
  tx_buffer_enable : bool;
  rx_buffer_enable : bool;
  stream_endpoints : bool;        (* add_stream_endpoints() *)
  controls_auto_enable : bool;    (* add_controls(auto_enable=False) *)
  n : nat                         (* jesd_phy.n = i *)
}.
Definition tx_init_done (phy : t) : Expr := Sig (tx_init_done (n phy)).
Definition rx_init_done (phy : t) : Expr := Sig (rx_init_done (n phy)).
End GTH4.

Record ClkOut : Type := mkClkOut {
  clkout_cd : string;
  clkout_freq : float;
  clkout_buf : option string;
  clkout_with_reset : bool
}.

Record MMCM : Type := mkMMCM {
  mmcm_speedgrade : Z;
  mmcm_clkin : option (Signal * float);
  mmcm_clkouts : list ClkOut
}.

Record CoreRX : Type := mkCoreRX {
  core_phys : list GTH4.t;
  core_settings : JESD204BSettings.t;
  core_converter_data_width : nat;
  core_scrambling : bool;
  core_stpl_random : bool;
  core_jsync : option Resource;     (* register_jsync *)
  core_jref : option Signal         (* register_jref *)
}.

Inductive Submodule : Type :=
| USMMCM (pll : MMCM)
| USPMMCM (pll : MMCM)
| USIDELAYCTRL (cd_ref cd_sys : string)
| GTH4QuadPLL (refclk : Signal) (refclk_freq linerate : float)
| GTH4Phy (phy : GTH4.t)
| LiteJESD204BCoreRX (core : CoreRX)
| LiteJESD204BCoreControl (core : string) (sys_clk_freq : float).

Inductive Special : Type :=
| Instance (cell : string) (ports : list (string * Expr))
| AsyncResetSynchronizer (cd : string) (async_reset : Expr)
| DifferentialInput (i_p i_n : Signal) (o : Signal).

Record Platform : Type := mkPlatform {
  available : list Resource;
  period_constraints : list (Signal * float);
  false_path_constraints : list (list Signal)
}.

Record Design : Type := mkDesign {
  platform : Platform;
  clock_domains : list string;
  specials : list Special;
  comb : list (Signal * Expr);
  submodules : list (string * Submodule)
}.

(** ** The constructor monad: state plus Python exceptions *)

Inductive Exception : Type :=
| NotImplementedError
| IndexError
| TypeError
| ConstraintError.

#[global] Instance Exception_eq_dec : EqDecision Exception.
Proof. solve_decision. Defined.

(** A raise keeps the description built up to the faulting statement, so
    that what had been done before the fault can be inspected. *)
Inductive Outcome (A : Type) : Type :=
| Ok (a : A) (d : Design)
| Raise (e : Exception) (d : Design).
Arguments Ok {A} a d.
Arguments Raise {A} e d.

Definition M (A : Type) : Type := Design -> Outcome A.

#[global] Instance M_ret : MRet M := fun A a d => Ok a d.
#[global] Instance M_bind : MBind M := fun A B k c d =>
  match c d with
  | Ok a d' => k a d'
  | Raise e d' => Raise e d'
  end.

Definition raise {A : Type} (e : Exception) : M A := fun d => Raise e d.
Definition get : M Design := fun d => Ok d d.
Definition modify (g : Design -> Design) : M unit := fun d => Ok tt (g d).

Definition or_raise {A : Type} (e : Exception) (o : option A) : M A :=
  match o with
  | Some a => mret a
  | None => raise e
  end.

(** [for x in xs: body(x)], collecting what the bodies return. *)
Fixpoint for_each {A B : Type} (body : A -> M B) (xs : list A) : M (list B) :=
  match xs with
  | [] => mret []
  | x :: xs' => b ← body x; bs ← for_each body xs'; mret (b :: bs)
  end.

(** ** State updates of the description *)

Definition set_platform (g : Platform -> Platform) (d : Design) : Design :=
  mkDesign (g (platform d)) (clock_domains d) (specials d) (comb d) (submodules d).

(** [self.clock_domains.cd_<name> = ClockDomain()] *)
Definition add_clock_domain (name : string) : M unit :=
  modify (fun d =>
    mkDesign (platform d) (clock_domains d ++ [name]) (specials d) (comb d) (submodules d)).

(** [self.specials += sp] *)
Definition add_special (sp : Special) : M unit :=
  modify (fun d =>
    mkDesign (platform d) (clock_domains d) (specials d ++ [sp]) (comb d) (submodules d)).

(** [self.comb += target.eq(e)] *)
Definition add_comb (target : Signal) (e : Expr) : M unit :=
  modify (fun d =>
    mkDesign (platform d) (clock_domains d) (specials d) (comb d ++ [(target, e)]) (submodules d)).

(** [self.submodules.<name> = sm] *)
Definition add_submodule (name : string) (sm : Submodule) : M unit :=
  modify (fun d =>
    mkDesign (platform d) (clock_domains d) (specials d) (comb d) (submodules d ++ [(name, sm)])).

(** A method call that mutates the submodule object stored under [name]:
    the object is shared between the local variable and [self.submodules]. *)
Definition update_submodule (name : string) (g : Submodule -> Submodule) : M unit :=
  modify (fun d =>
    mkDesign (platform d) (clock_domains d) (specials d) (comb d)
      (map (fun '(k, sm) => if decide (k = name) then (k, g sm) else (k, sm)) (submodules d))).

(** *** Platform (LiteX [GenericPlatform]) *)

Definition platform_add_extension (io : list Resource) : M unit :=
  modify (set_platform (fun p =>
    mkPlatform (available p ++ io) (period_constraints p) (false_path_constraints p))).

Definition resource_matches (name : string) (number : option nat) (r : Resource) : bool :=
  bool_decide (res_name r = name) &&
  match number with
  | Some i => bool_decide (res_number r = i)
  | None => true
  end.

Fixpoint remove_first {A : Type} (p : A -> bool) (l : list A) : list A :=
  match l with
  | [] => []
  | x :: l' => if p x then l' else x :: remove_first p l'
  end.

(** [platform.request(name, number)]: the first available resource of that
    name (and number) is taken out of the available ones; none left is a
    [ConstraintError]. *)
Definition platform_request (name : string) (number : option nat) : M Resource :=
  d ← get;
  match List.find (resource_matches name number) (available (platform d)) with
  | Some r =>
      modify (set_platform (fun p =>
        mkPlatform (remove_first (resource_matches name number) (available p))
                   (period_constraints p) (false_path_constraints p)));;
      mret r
  | None => raise ConstraintError
  end.

Definition platform_add_period_constraint (clk : Signal) (period : float) : M unit :=
  modify (set_platform (fun p =>
    mkPlatform (available p) (period_constraints p ++ [(clk, period)]) (false_path_constraints p))).

Definition platform_add_false_path_constraints (clks : list Signal) : M unit :=
  modify (set_platform (fun p =>
    mkPlatform (available p) (period_constraints p) (false_path_constraints p ++ [clks]))).

(** The pad of a requested resource: [pads.p], [pads.n], or the resource
    itself when it has no subsignal. *)
Definition pads (r : Resource) (subsignal : string) : Signal :=
  pad (res_name r) (res_number r) subsignal.

(** *** Clocking primitives (LiteX [USMMCM] / [USPMMCM]) *)

Definition on_mmcm (g : MMCM -> MMCM) (sm : Submodule) : Submodule :=
  match sm with
  | USMMCM p => USMMCM (g p)
  | USPMMCM p => USPMMCM (g p)
  | _ => sm
  end.

(** [pll.register_clkin(clkin, freq)] *)
Definition register_clkin (pll : string) (clkin : Signal) (freq : float) : M unit :=
  update_submodule pll (on_mmcm (fun p =>
    mkMMCM (mmcm_speedgrade p) (Some (clkin, freq)) (mmcm_clkouts p))).

(** [pll.create_clkout(cd, freq, buf, with_reset)].  LiteX records the
    requested output and, only when [with_reset] is true, adds
    [AsyncResetSynchronizer(cd, ~pll.locked)] as the driver of the reset of
    [cd]; with [with_reset=False] nothing drives it. *)
Definition create_clkout (pll : string) (cd : string) (freq : float)
    (buf : option string) (with_reset : bool) : M unit :=
  update_submodule pll (on_mmcm (fun p =>
    mkMMCM (mmcm_speedgrade p) (mmcm_clkin p)
           (mmcm_clkouts p ++ [mkClkOut cd freq buf with_reset])));;
  if with_reset
  then add_special (AsyncResetSynchronizer cd (Not (Sig (pll_locked pll))))
  else mret tt.

(** ** [_CRG] *)

Definition _CRG (sys_clk_freq : float) : M unit :=
  add_clock_domain "sys";;
  add_clock_domain "sys4x";;
  add_clock_domain "idelay";;
  clk200 ← platform_request "clk200" None;
  add_submodule "crg_pll" (USMMCM (mkMMCM (-2) None []));;
  add_comb (pll_reset "crg_pll") (Sig crg_rst);;
  register_clkin "crg_pll" (pads clk200 "") 200e6%float;;
  create_clkout "crg_pll" "sys" sys_clk_freq (Some "bufg") false;;
  create_clkout "crg_pll" "sys4x" (4 * sys_clk_freq)%float (Some "bufg") true;;
  platform_add_false_path_constraints [ClockSignal "sys"; pll_clkin "crg_pll"];;
  add_submodule "idelayctrl" (USIDELAYCTRL "sys4x" "sys").

(** ** [BaseSoC]: JESD204B *)

Definition adc08dj_phy : string := "gth4".
Definition adc08dj_phy_rx_order : list Z := [3; 0; 2; 1]%Z.
Definition adc08dj_phy_rx_lane_pol : list Z := [0; 0; 0; 0; 1; 1; 1; 1]%Z.
Definition adc08dj_refclk_freq : float := 156.25e6%float.
Definition adc08dj_jesd_linerate : float := 6.2500e9%float.

Definition framing : bool := true.
Definition scrambling : bool := true.
Definition stpl_random : bool := false.

(** *** JESD Configuration *)

Definition settings_4 : JESD204BSettings.t :=
  JESD204BSettings.mk
    (JESD204BPhysicalSettings.mk 4 4 8 8)
    (JESD204BTransportSettings.mk 2 1 32 0)
    0x5a 0x5 framing scrambling.

Definition settings_8 : JESD204BSettings.t :=
  JESD204BSettings.mk
    (JESD204BPhysicalSettings.mk 8 4 16 16)
    (JESD204BTransportSettings.mk 2 1 32 0)
    0x5a 0x5 framing scrambling.

(** The [if]/[elif]/[else] on [jesd_lanes]; it returns
    [(settings_tx, settings_rx)], [settings_tx] staying unbound with 8 lanes. *)
Definition jesd_configuration (jesd_lanes : nat)
    : M (option JESD204BSettings.t * JESD204BSettings.t) :=
  if (jesd_lanes =? 2)%nat then raise NotImplementedError
  else if (jesd_lanes =? 4)%nat then mret (Some settings_4, settings_4)
  else if (jesd_lanes =? 8)%nat then mret (None, settings_8)
  else raise NotImplementedError.

Definition gt_lane (name : string) (number : nat) (p n : string) : Resource :=
  mkResource name number [Subsignal "p" p None; Subsignal "n" n None].

Definition adc08dj5200rf_extension : list Resource := [
  gt_lane "adc08dj5200rf_refclk" 0 "HPC:GBTCLK0_M2C_P" "HPC:GBTCLK0_M2C_N";
  gt_lane "adc08dj5200rf_jesd_rx" 0 "HPC:DP0_M2C_P" "HPC:DP0_M2C_N";
  gt_lane "adc08dj5200rf_jesd_rx" 1 "HPC:DP1_M2C_P" "HPC:DP1_M2C_N";
  gt_lane "adc08dj5200rf_jesd_rx" 2 "HPC:DP2_M2C_P" "HPC:DP2_M2C_N";
  gt_lane "adc08dj5200rf_jesd_rx" 3 "HPC:DP3_M2C_P" "HPC:DP3_M2C_N";
  gt_lane "adc08dj5200rf_jesd_rx" 4 "HPC:DP4_M2C_P" "HPC:DP4_M2C_N";
  gt_lane "adc08dj5200rf_jesd_rx" 5 "HPC:DP5_M2C_P" "HPC:DP5_M2C_N";
  gt_lane "adc08dj5200rf_jesd_rx" 6 "HPC:DP6_M2C_P" "HPC:DP6_M2C_N";
  gt_lane "adc08dj5200rf_jesd_rx" 7 "HPC:DP7_M2C_P" "HPC:DP7_M2C_N";
  gt_lane "adc08dj5200rf_jesd_tx" 0 "HPC:DP0_C2M_P" "HPC:DP0_C2M_N";
  gt_lane "adc08dj5200rf_jesd_tx" 1 "HPC:DP1_C2M_P" "HPC:DP1_C2M_N";
  gt_lane "adc08dj5200rf_jesd_tx" 2 "HPC:DP2_C2M_P" "HPC:DP2_C2M_N";
  gt_lane "adc08dj5200rf_jesd_tx" 3 "HPC:DP3_C2M_P" "HPC:DP3_C2M_N";
  gt_lane "adc08dj5200rf_jesd_tx" 4 "HPC:DP4_C2M_P" "HPC:DP4_C2M_N";
  gt_lane "adc08dj5200rf_jesd_tx" 5 "HPC:DP5_C2M_P" "HPC:DP5_C2M_N";
  gt_lane "adc08dj5200rf_jesd_tx" 6 "HPC:DP6_C2M_P" "HPC:DP6_C2M_N";
  gt_lane "adc08dj5200rf_jesd_tx" 7 "HPC:DP7_C2M_P" "HPC:DP7_C2M_N";
  mkResource "adc08dj5200rf_sync" 0 [Pins "HPC:LA28_P"; IOStandard "LVCMOS18"];
  mkResource "adc08dj5200rf_sysref" 0
    [Subsignal "p" "HPC:LA03_P" (Some "LVDS"); Subsignal "n" "HPC:LA03_N" (Some "LVDS")]
].

(** *** JESD Clocking (Device) *)

Definition userclk_freq : float := (adc08dj_jesd_linerate / 40)%float.

Definition jesd_clocking_device : M unit :=
  add_clock_domain "jesd_156_25";;
  add_clock_domain "jesd_78_125";;
  add_clock_domain "jesd";;
  add_clock_domain "clk156_25";;
  refclk_pads ← platform_request "adc08dj5200rf_refclk" None;
  add_special (Instance "IBUFDS_GTE4" [
    ("i_CEB", Constant 0);
    ("i_I", Sig (pads refclk_pads "p"));
    ("i_IB", Sig (pads refclk_pads "n"));
    ("o_O", Sig refclk);
    ("o_ODIV2", Sig refclk_div2)]);;
  add_submodule "pll" (USPMMCM (mkMMCM (-2) None []));;
  register_clkin "pll" refclk_div2 (adc08dj_refclk_freq / 2)%float;;
  create_clkout "pll" "jesd_156_25" userclk_freq None false;;
  create_clkout "pll" "jesd_78_125" (userclk_freq / 2)%float None false;;
  create_clkout "pll" "clk156_25" 156.25e6%float (Some "bufg") false;;
  add_special (Instance "BUFGMUX" [
    ("i_I0", Sig (ClockSignal "jesd_156_25"));
    ("i_I1", Sig (ClockSignal "jesd_78_125"));
    ("o_O", Sig (ClockSignal "jesd"))]);;
  platform_add_period_constraint refclk_div2 (1e9 / (adc08dj_refclk_freq / 2))%float.

(** *** JESD Clocking (SYSREF) *)

Definition jesd_clocking_sysref : M unit :=
  sysref_pads ← platform_request "adc08dj5200rf_sysref" None;
  add_special (DifferentialInput (pads sysref_pads "p") (pads sysref_pads "n") sysref).

(** *** JESD PHYs *)

(** The three one-entry tables indexed by [adc08dj_phy] ("gth4"). *)
Definition jesd_phy_data_width : Z := 20.

(** [GTH4.tx_clk_freq] and [GTH4.rx_clk_freq]: the line rate of the quad PLL
    over the data width (set by the transceiver class of liteiclink). *)
Definition gth4_clk_freq (linerate : float) (data_width : Z) : float :=
  (linerate / PrimFloat.of_uint63 (Uint63.of_Z data_width))%float.

(** Body of [for i in range(jesd_lanes)]. *)
Definition jesd_phy_body (sys_clk_freq : float) (i : nat) : M GTH4.t :=
  jesd_tx_pads ← platform_request "adc08dj5200rf_jesd_tx" (Some i);
  jesd_rx_pads ← platform_request "adc08dj5200rf_jesd_rx" (Some i);
  let jesd_phy :=
    GTH4.mk jesd_tx_pads jesd_rx_pads sys_clk_freq jesd_phy_data_width
            false true true true false i in
  add_submodule ("jesd_phy" +:+ pretty i) (GTH4Phy jesd_phy);;
  platform_add_period_constraint (cd_tx_clk i)
    (1e9 / gth4_clk_freq adc08dj_jesd_linerate jesd_phy_data_width)%float;;
  platform_add_period_constraint (cd_rx_clk i)
    (1e9 / gth4_clk_freq adc08dj_jesd_linerate jesd_phy_data_width)%float;;
  platform_add_false_path_constraints
    [ClockSignal "jesd"; cd_tx_clk i; cd_rx_clk i];;
  mret jesd_phy.

(** [jesd_pll] and the loop filling [self.jesd_phys].  The quad PLL is added
    with [self.submodules += jesd_pll], without a name of its own; it is
    kept under the name of the local variable. *)
Definition jesd_phys_section (sys_clk_freq : float) (jesd_lanes : nat) : M (list GTH4.t) :=
  add_submodule "jesd_pll" (GTH4QuadPLL refclk adc08dj_refclk_freq adc08dj_jesd_linerate);;
  for_each (jesd_phy_body sys_clk_freq) (seq 0 jesd_lanes).

(** What the constructor holds in [self] and in its local variables once
    the reset synchronizer of [cd_jesd] is in place. *)
Record JesdLocals : Type := mkJesdLocals {
  jesd_lanes : nat;
  settings_tx : option JESD204BSettings.t;
  settings_rx : JESD204BSettings.t;
  jesd_phys : list GTH4.t;
  jesd_phys_tx_init_done : Expr;
  jesd_phys_rx_init_done : Expr
}.

(** The expression handed to the reset synchronizer of [cd_jesd]. *)
Definition jesd_reset (tx_init_done rx_init_done : Expr) : Expr :=
  Not (And tx_init_done rx_init_done).

(** From [# JESD Configuration] to the [AsyncResetSynchronizer] of
    [cd_jesd]; [jesd_lanes] is [len(adc08dj_phy_rx_order)]. *)
Definition jesd_bringup (sys_clk_freq : float) (jesd_lanes : nat) : M JesdLocals :=
  '(settings_tx, settings_rx) ← jesd_configuration jesd_lanes;
  platform_add_extension adc08dj5200rf_extension;;
  jesd_clocking_device;;
  jesd_clocking_sysref;;
  jesd_phys ← jesd_phys_section sys_clk_freq jesd_lanes;
  jesd_phys_tx_init_done ← or_raise TypeError (reduce and_ (map GTH4.tx_init_done jesd_phys));
  jesd_phys_rx_init_done ← or_raise TypeError (reduce and_ (map GTH4.rx_init_done jesd_phys));
  add_special (AsyncResetSynchronizer "jesd"
                 (jesd_reset jesd_phys_tx_init_done jesd_phys_rx_init_done));;
  mret (mkJesdLocals jesd_lanes settings_tx settings_rx jesd_phys
          jesd_phys_tx_init_done jesd_phys_rx_init_done).

(** [[jesd_phys[n] for n in adc08dj_phy_rx_order]] *)
Definition reorder (jesd_phys : list GTH4.t) (rx_order : list Z) : M (list GTH4.t) :=
  for_each (fun n => or_raise IndexError (py_getitem jesd_phys n)) rx_order.

(** *** JESD RX *)

Definition register_jsync (sync : Resource) (sm : Submodule) : Submodule :=
  match sm with
  | LiteJESD204BCoreRX c =>
      LiteJESD204BCoreRX
        (mkCoreRX (core_phys c) (core_settings c) (core_converter_data_width c)
                  (core_scrambling c) (core_stpl_random c) (Some sync) (core_jref c))
  | _ => sm
  end.

Definition register_jref (jref : Signal) (sm : Submodule) : Submodule :=
  match sm with
  | LiteJESD204BCoreRX c =>
      LiteJESD204BCoreRX
        (mkCoreRX (core_phys c) (core_settings c) (core_converter_data_width c)
                  (core_scrambling c) (core_stpl_random c) (core_jsync c) (Some jref))
  | _ => sm
  end.

Definition jesd_rx (sys_clk_freq : float) (locals : JesdLocals)
    (jesd_phys_rx : list GTH4.t) : M unit :=
  add_submodule "jesd_rx_core"
    (LiteJESD204BCoreRX
       (mkCoreRX jesd_phys_rx (settings_rx locals) (jesd_lanes locals * 8)
                 scrambling stpl_random None None));;
  add_submodule "jesd_rx_control" (LiteJESD204BCoreControl "jesd_rx_core" sys_clk_freq);;
  sync ← platform_request "adc08dj5200rf_sync" None;
  update_submodule "jesd_rx_core" (register_jsync sync);;
  update_submodule "jesd_rx_core" (register_jref sysref).

(** *** JESD Link Status *)

(** The expression assigned to [self.jesd_link_status]. *)
Definition link_status_expr : Expr :=
  And (And (Sig rx_core_enable) (Sig rx_core_jsync))
      (And (Sig rx_core_enable) (Sig rx_core_jsync)).

Definition jesd_link_status_section : M unit :=
  add_comb jesd_link_status link_status_expr.

(** The JESD204B part of [BaseSoC.__init__], with the lane order list
    ([adc08dj_phy_rx_order] in the file) as a parameter.  It returns the
    local variables and [jesd_phys_rx]. *)
Definition BaseSoC_jesd (sys_clk_freq : float) (rx_order : list Z)
    : M (JesdLocals * list GTH4.t) :=
  locals ← jesd_bringup sys_clk_freq (length rx_order);
  jesd_phys_rx ← reorder (jesd_phys locals) rx_order;
  jesd_rx sys_clk_freq locals jesd_phys_rx;;
  jesd_link_status_section;;
  mret (locals, jesd_phys_rx).

(** The board platform is an external object; of its resources only the one
    the embedded code requests is listed. *)
Definition alinx_axau15_Platform : Platform :=
  mkPlatform [mkResource "clk200" 0 []] [] [].

Definition empty_design : Design :=
  mkDesign alinx_axau15_Platform [] [] [] [].

(** [BaseSoC(sys_clk_freq)] with a given lane order list. *)
Definition BaseSoC_with (sys_clk_freq : float) (rx_order : list Z)
    : Outcome (JesdLocals * list GTH4.t) :=
  (_CRG sys_clk_freq;; BaseSoC_jesd sys_clk_freq rx_order) empty_design.

(** [BaseSoC(sys_clk_freq)] as the file configures it. *)
Definition BaseSoC (sys_clk_freq : float) : Outcome (JesdLocals * list GTH4.t) :=
  BaseSoC_with sys_clk_freq adc08dj_phy_rx_order.

(** The submodule stored under [name], as [getattr(self, name)]. *)
Definition lookup_submodule (name : string) (d : Design) : option Submodule :=
  snd <$> List.find (fun '(k, _) => bool_decide (k = name)) (submodules d).

(** ** Reset lines *)

(** Modelled from the spec: [AsyncResetSynchronizer] is a Migen primitive the
    file imports and does not define.  Section 4.3 of the specification gives
    its discipline: the reset is asserted asynchronously and at once, and is
    released synchronously to the destination clock, through a chain of
    [stages] synchronization flip-flops.  The chain is a list of flip-flop
    outputs, the first one sampling constant 0; the asynchronous input
    presets every flip-flop; the reset line of the domain is the output of
    the last flip-flop (the input itself when there is no stage). *)
Definition ars_level (stages : nat) (async_reset : bool) (ffs : list bool) : list bool :=
  if async_reset then replicate stages true else ffs.

Definition ars_edge (stages : nat) (async_reset : bool) (ffs : list bool) : list bool :=
  if async_reset then replicate stages true else take stages (false :: ffs).

Definition ars_rst (async_reset : bool) (ffs : list bool) : bool :=
  List.last ffs async_reset.

(** The reset line of every clock domain, and the flip-flops of the
    synchronizer that drives it, if any. *)
Record Resets : Type := mkResets {
  chains : gmap string (list bool);
  rst : gmap string bool
}.

(** What happens to the circuit: the signals take the levels of [env], with
    or without a rising edge of the clock of one domain. *)
Inductive Event : Type :=
| Level (env : Signal -> bool)
| ClockEdge (cd : string) (env : Signal -> bool).

Definition event_env (ev : Event) : Signal -> bool :=
  match ev with
  | Level env => env
  | ClockEdge _ env => env
  end.

Definition clocks (ev : Event) (cd : string) : bool :=
  match ev with
  | Level _ => false
  | ClockEdge cd' _ => bool_decide (cd' = cd)
  end.

(** Only a reset synchronizer writes a reset line, and only the one of its
    own domain.  Flip-flops power up preset. *)
Definition step_special (stages : nat) (ev : Event) (r : Resets) (sp : Special) : Resets :=
  match sp with
  | AsyncResetSynchronizer cd async_reset =>
      let a := eval (event_env ev) async_reset in
      let ffs := default (replicate stages true) (chains r !! cd) in
      let ffs' := if clocks ev cd then ars_edge stages a ffs else ars_level stages a ffs in
      mkResets (<[cd := ffs']> (chains r)) (<[cd := ars_rst a ffs']> (rst r))
  | _ => r
  end.

Definition step (stages : nat) (d : Design) (r : Resets) (ev : Event) : Resets :=
  fold_left (step_special stages ev) (specials d) r.

Definition run (stages : nat) (d : Design) (evs : list Event) (r : Resets) : Resets :=
  fold_left (step stages d) evs r.

(** The synchronizers of [d] that drive the reset of domain [cd]. *)
Definition drives (cd : string) (sp : Special) : bool :=
  match sp with
  | AsyncResetSynchronizer cd' _ => bool_decide (cd' = cd)
  | _ => false
  end.

Definition reset_drivers (cd : string) (d : Design) : list Special :=
  List.filter (drives cd) (specials d).

(** ** Lane bring-up: combined ready signals *)

(** The conjunction of a per-lane flag over lanes [0 .. lanes-1]. *)
Definition all_lanes (flag : nat -> Signal) (lanes : nat) (env : Signal -> bool) : bool :=
  forallb (fun i => env (flag i)) (seq 0 lanes).

(** [env] with signal [s] forced to [false]. *)
Definition drop_signal (s : Signal) (env : Signal -> bool) : Signal -> bool :=
  fun s' => if decide (s' = s) then false else env s'.

(** ** Lane order *)

(** [[lanes[n] for n in rx_order]] as a value: [None] when an index faults. *)
Definition apply_order {A : Type} (lanes : list A) (rx_order : list Z) : option (list A) :=
  mapM (py_getitem lanes) rx_order.

(** Python [l.index(x)]. *)
Fixpoint index {A : Type} `{EqDecision A} (x : A) (l : list A) : option nat :=
  match l with
  | [] => None
  | y :: l' => if decide (y = x) then Some 0 else S <$> index x l'
  end.

(** The inverse of a lane order list, in the words of the specification:
    position [j] of the inverse holds the position that lane [j] has in the
    order list.  It exists when every lane occurs in the list. *)
Definition inverse_order (rx_order : list Z) : option (list Z) :=
  mapM (fun j => Z.of_nat <$> index (Z.of_nat j) rx_order) (seq 0 (length rx_order)).

(** The lanes [0 .. lanes-1] in their own order. *)
Definition identity_order (lanes : nat) : list Z := map Z.of_nat (seq 0 lanes).

(** An index that Python accepts for a list of [lanes] elements. *)
Definition index_in_range (lanes : nat) (i : Z) : Prop :=
  (- Z.of_nat lanes <= i < Z.of_nat lanes)%Z.

(** ** Exact values of the clock frequencies *)

(** The rational number a finite binary64 float stands for. *)
Definition Q_of_float (x : float) : option Q :=
  match Prim2SF x with
  | S754_zero _ => Some 0%Q
  | S754_finite sgn mant e =>
      Some (((if sgn then Z.neg mant else Z.pos mant) # 1) * Qpower (2 # 1) e)%Q
  | _ => None
  end.

Definition Qeq_opt (x : option Q) (q : Q) : Prop :=
  match x with
  | Some v => Qeq v q
  | None => False
  end.

(** ** Notions used in the statements *)

(** The constructor up to the reset synchronizer of [cd_jesd], for a lane
    order list of [lanes] entries. *)
Definition bringup_outcome (sys_clk_freq : float) (lanes : nat) : Outcome JesdLocals :=
  (_CRG sys_clk_freq;; jesd_bringup sys_clk_freq lanes) empty_design.

(** The specials [_CRG] leaves. *)
Definition crg_specials : list Special :=
  [AsyncResetSynchronizer "sys4x" (Not (Sig (pll_locked "crg_pll")))].

(** The reference clock buffer: [refclk] on [O], [refclk_div2] on [ODIV2]. *)
Definition refclk_buffer : Special := Instance "IBUFDS_GTE4"
  [("i_CEB", Constant 0);
   ("i_I", Sig (pad "adc08dj5200rf_refclk" 0 "p"));
   ("i_IB", Sig (pad "adc08dj5200rf_refclk" 0 "n"));
   ("o_O", Sig refclk);
   ("o_ODIV2", Sig refclk_div2)].

(** The multiplexer that clocks [cd_jesd] from the two generated domains. *)
Definition jesd_clock_mux : Special := Instance "BUFGMUX"
  [("i_I0", Sig (ClockSignal "jesd_156_25"));
   ("i_I1", Sig (ClockSignal "jesd_78_125"));
   ("o_O", Sig (ClockSignal "jesd"))].

(** The specials of the two JESD clocking parts. *)
Definition jesd_clocking_specials : list Special :=
  [refclk_buffer;
   jesd_clock_mux;
   DifferentialInput (pad "adc08dj5200rf_sysref" 0 "p")
                     (pad "adc08dj5200rf_sysref" 0 "n") sysref].

(** The [USPMMCM] of the JESD clocking once its outputs are created. *)
Definition jesd_mmcm : MMCM :=
  mkMMCM (-2) (Some (refclk_div2, (adc08dj_refclk_freq / 2)%float))
    [mkClkOut "jesd_156_25" userclk_freq None false;
     mkClkOut "jesd_78_125" (userclk_freq / 2)%float None false;
     mkClkOut "clk156_25" 156.25e6%float (Some "bufg") false].

(** The JSYNC pad of the extension. *)
Definition sync_resource : Resource :=
  mkResource "adc08dj5200rf_sync" 0 [Pins "HPC:LA28_P"; IOStandard "LVCMOS18"].

(** What holds of the local variables and of the description when the
    constructor has reached the reset synchronizer of [cd_jesd]. *)
Record bringup_ok (lanes : nat) (locals : JesdLocals) (d : Design) : Prop := {
  bu_lanes : jesd_lanes locals = lanes;
  bu_phys : map GTH4.n (jesd_phys locals) = seq 0 lanes;
  bu_tx : reduce and_ (map GTH4.tx_init_done (jesd_phys locals))
          = Some (jesd_phys_tx_init_done locals);
  bu_rx : reduce and_ (map GTH4.rx_init_done (jesd_phys locals))
          = Some (jesd_phys_rx_init_done locals);
  bu_settings : jesd_configuration lanes d
                = Ok (settings_tx locals, settings_rx locals) d;
  bu_specials : specials d
                = (crg_specials ++ jesd_clocking_specials ++
                   [AsyncResetSynchronizer "jesd"
                      (jesd_reset (jesd_phys_tx_init_done locals)
                                  (jesd_phys_rx_init_done locals))])%list;
  bu_clock_domains : clock_domains d
                = ["sys"; "sys4x"; "idelay"; "jesd_156_25"; "jesd_78_125"; "jesd"; "clk156_25"];
  bu_comb : comb d = [(pll_reset "crg_pll", Sig crg_rst)];
  bu_pll : lookup_submodule "pll" d = Some (USPMMCM jesd_mmcm);
  bu_period : (refclk_div2, (1e9 / (adc08dj_refclk_freq / 2))%float)
              ∈ period_constraints (platform d);
  bu_no_core : lookup_submodule "jesd_rx_core" d = None
}.

(** What the JESD RX and link status parts change, from [d1] to [d2]. *)
Record link_ok (sys_clk_freq : float) (locals : JesdLocals) (jesd_phys_rx : list GTH4.t)
    (d1 d2 : Design) : Prop := {
  lk_specials : specials d2 = specials d1;
  lk_clock_domains : clock_domains d2 = clock_domains d1;
  lk_comb : comb d2 = (comb d1 ++ [(jesd_link_status, link_status_expr)])%list;
  lk_core : lookup_submodule "jesd_rx_core" d2
            = Some (LiteJESD204BCoreRX
                      (mkCoreRX jesd_phys_rx (settings_rx locals) (jesd_lanes locals * 8)
                                scrambling stpl_random (Some sync_resource) (Some sysref)));
  lk_control : lookup_submodule "jesd_rx_control" d2
            = Some (LiteJESD204BCoreControl "jesd_rx_core" sys_clk_freq);
  lk_pll : lookup_submodule "pll" d2 = lookup_submodule "pll" d1;
  lk_period : period_constraints (platform d2) = period_constraints (platform d1)
}.

(** The flip-flops of a synchronizer [k] clock edges after its input
    dropped: the first [k] hold 0, the others are still preset. *)
Definition chain_after (stages k : nat) : list bool :=
  (fun i => negb (i <? k)%nat) <$> seq 0 stages.

(** Number of rising edges of the clock of [cd] among the events. *)
Definition edges (cd : string) (evs : list Event) : nat :=
  length (List.filter (fun ev => clocks ev cd) evs).

(** The state a synchronizer is left in by one event. *)
Definition ars_next (stages : nat) (ev : Event) (cd : string) (async_reset : Expr) (r : Resets)
    : list bool :=
  let a := eval (event_env ev) async_reset in
  let ffs := default (replicate stages true) (chains r !! cd) in
  if clocks ev cd then ars_edge stages a ffs else ars_level stages a ffs.

(** The value a combinatorial assignment of [d] gives to [target]. *)
Definition comb_value (d : Design) (env : Signal -> bool) (target : Signal) : option bool :=
  (fun '(_, e) => eval env e)
    <$> List.find (fun '(t, _) => bool_decide (t = target)) (comb d).

(** Levels of the signals at time [t] when lane [i] raises its
    [rx_init.done] at time [rx_time i] and keeps it; the other signals
    follow [other]. *)
Definition lane_timing (rx_time : nat -> nat) (other : nat -> Signal -> bool)
    (t : nat) : Signal -> bool :=
  fun s =>
    match s with
    | rx_init_done i => (rx_time i <=? t)%nat
    | _ => other t s
    end.

(** A lane order list that is not a permutation of [0 .. N-1], [N] its
    length: an entry outside [0, N) or an entry that occurs twice. *)
Definition lane_order_malformed (rx_order : list Z) : bool :=
  existsb (fun i => negb ((0 <=? i)%Z && (i <? Z.of_nat (length rx_order))%Z)) rx_order
  || negb (bool_decide (NoDup rx_order)).

(** The eight lane order list of the commented-out part of
    [adc08dj_phy_rx_order]. *)
Definition order8 : list Z := [3; 0; 2; 1; 7; 4; 6; 5]%Z.

(** The settings the lane count selects. *)
Definition settings_for (lanes : nat) : option JESD204BSettings.t * JESD204BSettings.t :=
  if (lanes =? 4)%nat then (Some settings_4, settings_4) else (None, settings_8).

(** ** Notions used in the further properties *)

(** The transceiver the loop builds for lane [i] on the pads [tx] and [rx]. *)
Definition lane_phy (sys_clk_freq : float) (i : nat) (tx rx : Resource) : GTH4.t :=
  GTH4.mk tx rx sys_clk_freq jesd_phy_data_width false true true true false i.

(** The resource of the extension with a given name and number. *)
Definition extension_resource (name : string) (number : nat) : option Resource :=
  List.find (resource_matches name (Some number)) adc08dj5200rf_extension.

(** The submodules [_CRG] registers. *)
Definition crg_submodules (sys_clk_freq : float) : list (string * Submodule) :=
  [("crg_pll",
    USMMCM (mkMMCM (-2) (Some (pad "clk200" 0 "", 200e6%float))
              [mkClkOut "sys" sys_clk_freq (Some "bufg") false;
               mkClkOut "sys4x" (4 * sys_clk_freq)%float (Some "bufg") true]));
   ("idelayctrl", USIDELAYCTRL "sys4x" "sys")].

(** The submodule entry of a transceiver: [setattr(self.submodules,
    "jesd_phy" + str(i), jesd_phy)]. *)
Definition phy_submodule (phy : GTH4.t) : string * Submodule :=
  ("jesd_phy" +:+ pretty (GTH4.n phy), GTH4Phy phy).

(** The protocol core as the constructor leaves it. *)
Definition rx_core (locals : JesdLocals) (jesd_phys_rx : list GTH4.t) : CoreRX :=
  mkCoreRX jesd_phys_rx (settings_rx locals) (jesd_lanes locals * 8)
           scrambling stpl_random (Some sync_resource) (Some sysref).

(** The false path declared for lane [i]. *)
Definition lane_false_path (i : nat) : list Signal :=
  [ClockSignal "jesd"; cd_tx_clk i; cd_rx_clk i].

(** The description a completed constructor leaves, for [lanes] lanes and
    the lane array [jesd_phys_rx] handed to the core. *)
Record description_ok (sys_clk_freq : float) (lanes : nat) (locals : JesdLocals)
    (jesd_phys_rx : list GTH4.t) (d : Design) : Prop := {
  ds_phys : forall i, i < lanes ->
      exists tx rx,
        extension_resource "adc08dj5200rf_jesd_tx" i = Some tx /\
        extension_resource "adc08dj5200rf_jesd_rx" i = Some rx /\
        jesd_phys locals !! i = Some (lane_phy sys_clk_freq i tx rx);
  ds_submodules : submodules d
      = (crg_submodules sys_clk_freq ++
         [("pll", USPMMCM jesd_mmcm);
          ("jesd_pll", GTH4QuadPLL refclk adc08dj_refclk_freq adc08dj_jesd_linerate)] ++
         map phy_submodule (jesd_phys locals) ++
         [("jesd_rx_core", LiteJESD204BCoreRX (rx_core locals jesd_phys_rx));
          ("jesd_rx_control", LiteJESD204BCoreControl "jesd_rx_core" sys_clk_freq)])%list;
  ds_false_paths : false_path_constraints (platform d)
      = [ClockSignal "sys"; pll_clkin "crg_pll"] :: map lane_false_path (seq 0 lanes);
  ds_period_clocks : map fst (period_constraints (platform d))
      = refclk_div2 :: flat_map (fun i => [cd_tx_clk i; cd_rx_clk i]) (seq 0 lanes);
  ds_available : available (platform d)
      = List.filter (fun r => (lanes <=? res_number r)%nat) adc08dj5200rf_extension
}.

(** The description at the point the lane array is built. *)
Record bringup_description (sys_clk_freq : float) (lanes : nat) (locals : JesdLocals)
    (d : Design) : Prop := {
  bd_submodules : submodules d
      = (crg_submodules sys_clk_freq ++
         [("pll", USPMMCM jesd_mmcm);
          ("jesd_pll", GTH4QuadPLL refclk adc08dj_refclk_freq adc08dj_jesd_linerate)] ++
         map phy_submodule (jesd_phys locals))%list;
  bd_available : available (platform d)
      = List.filter (fun r => (lanes <=? res_number r)%nat
                              || bool_decide (res_name r = "adc08dj5200rf_sync"))
                    adc08dj5200rf_extension
}.

(** The pads of the extension for lane [i]: receive pairs on [DP<i>_M2C],
    transmit pairs on [DP<i>_C2M]. *)
Definition lane_rx_pads (i : nat) : Resource :=
  gt_lane "adc08dj5200rf_jesd_rx" i
    ("HPC:DP" +:+ pretty i +:+ "_M2C_P") ("HPC:DP" +:+ pretty i +:+ "_M2C_N").

Definition lane_tx_pads (i : nat) : Resource :=
  gt_lane "adc08dj5200rf_jesd_tx" i
    ("HPC:DP" +:+ pretty i +:+ "_C2M_P") ("HPC:DP" +:+ pretty i +:+ "_C2M_N").

(** The position of a list of [lanes] elements that the subscript [i]
    selects, for [i] in [-lanes, lanes). *)
Definition selected (lanes : nat) (i : Z) : nat :=
  Z.to_nat (i mod Z.of_nat lanes).

(** The reset lines and synchronizer flip-flops of [cd] agree in [r], [r']. *)
Definition same_reset (cd : string) (r r' : Resets) : Prop :=
  chains r !! cd = chains r' !! cd /\ rst r !! cd = rst r' !! cd.

(** Two events look the same to the synchronizer of [cd] fed with [e]. *)
Definition same_for (cd : string) (e : Expr) (ev ev' : Event) : Prop :=
  clocks ev cd = clocks ev' cd /\ eval (event_env ev) e = eval (event_env ev') e.

(** Two valuations agree on the init-done flags of lanes [0 .. lanes-1]. *)
Definition same_lane_flags (lanes : nat) (env env' : Signal -> bool) : Prop :=
  forall i, i < lanes ->
    env (tx_init_done i) = env' (tx_init_done i) /\
    env (rx_init_done i) = env' (rx_init_done i).

(** Two events agree on the lane flags and on whether they are an edge of
    the [jesd] clock. *)
Definition same_for_lanes (lanes : nat) (ev ev' : Event) : Prop :=
  clocks ev "jesd" = clocks ev' "jesd" /\
  same_lane_flags lanes (event_env ev) (event_env ev').






(** * Properties *)

(** ** Laws of the constructor monad *)

Lemma bind_Ok {A B : Type} (c : M A) (k : A -> M B) (d d' : Design) (a : A) :
  c d = Ok a d' -> (c ≫= k) d = k a d'.
Proof. intros H. unfold mbind, M_bind. now rewrite H. Qed.

Lemma bind_Raise {A B : Type} (c : M A) (k : A -> M B) (d d' : Design) (e : Exception) :
  c d = Raise e d' -> (c ≫= k) d = Raise e d'.
Proof. intros H. unfold mbind, M_bind. now rewrite H. Qed.

Lemma bind_assoc {A B C : Type} (c : M A) (k : A -> M B) (h : B -> M C) (d : Design) :
  ((c ≫= k) ≫= h) d = (c ≫= (fun a => k a ≫= h)) d.
Proof. unfold mbind, M_bind. destruct (c d); reflexivity. Qed.

Lemma reorder_spec (phys : list GTH4.t) (rx_order : list Z) (d : Design) :
  reorder phys rx_order d =
  match apply_order phys rx_order with
  | Some l => Ok l d
  | None => Raise IndexError d
  end.
Proof.
  unfold reorder, apply_order.
  induction rx_order as [|i rx_order IH]; [reflexivity|].
  cbn [for_each mapM]. unfold mbind at 1, M_bind at 1.
  destruct (py_getitem phys i) as [p|]; cbn; [|reflexivity].
  unfold mbind at 1, M_bind at 1. rewrite IH.
  destruct (mapM (py_getitem phys) rx_order); reflexivity.
Qed.

Lemma eval_fold_and (env : Signal -> bool) (xs : list Expr) (acc : Expr) :
  eval env (fold_left and_ xs acc) = eval env acc && forallb (eval env) xs.
Proof.
  revert acc. induction xs as [|x xs IH]; intros acc; cbn.
  - now rewrite andb_true_r.
  - rewrite IH. cbn. now rewrite andb_assoc.
Qed.

Lemma eval_reduce_and (env : Signal -> bool) (xs : list Expr) (e : Expr) :
  reduce and_ xs = Some e -> eval env e = forallb (eval env) xs.
Proof.
  destruct xs as [|x xs]; cbn; [discriminate|].
  intros [= <-]. apply eval_fold_and.
Qed.

Lemma forallb_map {A B : Type} (f : A -> B) (p : B -> bool) (l : list A) :
  forallb p (map f l) = forallb (fun x => p (f x)) l.
Proof. induction l as [|x l IH]; cbn; [reflexivity|now rewrite IH]. Qed.

Lemma BaseSoC_with_unfold scf order :
  BaseSoC_with scf order =
  match bringup_outcome scf (length order) with
  | Raise e d => Raise e d
  | Ok locals d1 =>
    match apply_order (jesd_phys locals) order with
    | None => Raise IndexError d1
    | Some l => (jesd_rx scf locals l;; jesd_link_status_section;; mret (locals, l)) d1
    end
  end.
Proof.
  unfold BaseSoC_with, BaseSoC_jesd, bringup_outcome.
  unfold mbind, M_bind.
  destruct (_CRG scf empty_design) as [[] d0|e d0]; [|reflexivity].
  destruct (jesd_bringup scf (length order) d0) as [locals d1|e d1]; [|reflexivity].
  rewrite reorder_spec. destruct (apply_order (jesd_phys locals) order); reflexivity.
Qed.

Lemma bringup_supported (scf : float) (lanes : nat) :
  lanes = 4 \/ lanes = 8 ->
  exists locals d1,
    bringup_outcome scf lanes = Ok locals d1 /\
    bringup_ok lanes locals d1 /\
    forall l, exists d2,
      (jesd_rx scf locals l;; jesd_link_status_section;; mret (locals, l)) d1
        = Ok (locals, l) d2 /\
      link_ok scf locals l d1 d2.
Proof.
  intros [-> | ->].
  - do 2 eexists. split; [vm_compute; reflexivity|].
    split; [split; try reflexivity; apply (list_elem_of_lookup_2 _ 0); reflexivity|].
    intros l. eexists. split; [vm_compute; reflexivity|].
    split; reflexivity.
  - do 2 eexists. split; [vm_compute; reflexivity|].
    split; [split; try reflexivity; apply (list_elem_of_lookup_2 _ 0); reflexivity|].
    intros l. eexists. split; [vm_compute; reflexivity|].
    split; reflexivity.
Qed.

Lemma bringup_unsupported (scf : float) (lanes : nat) :
  lanes <> 4 -> lanes <> 8 ->
  exists d0, _CRG scf empty_design = Ok tt d0 /\
    bringup_outcome scf lanes = Raise NotImplementedError d0 /\
    submodules d0 = [("crg_pll", USMMCM (mkMMCM (-2) (Some (pad "clk200" 0 "", 200e6%float))
                        [mkClkOut "sys" scf (Some "bufg") false;
                         mkClkOut "sys4x" (4 * scf)%float (Some "bufg") true]));
                     ("idelayctrl", USIDELAYCTRL "sys4x" "sys")] /\
    specials d0 = crg_specials /\
    clock_domains d0 = ["sys"; "sys4x"; "idelay"].
Proof.
  intros H4 H8. eexists. split; [vm_compute; reflexivity|].
  split; [|repeat split].
  unfold bringup_outcome. erewrite bind_Ok by (vm_compute; reflexivity).
  unfold jesd_bringup, jesd_configuration.
  destruct (Nat.eqb_spec lanes 2); [reflexivity|].
  destruct (Nat.eqb_spec lanes 4); [contradiction|].
  destruct (Nat.eqb_spec lanes 8); [contradiction|].
  reflexivity.
Qed.

(** ** Python subscripts and the lane order *)

Lemma py_getitem_of_nat {A : Type} (l : list A) (k : nat) :
  py_getitem l (Z.of_nat k) = l !! k.
Proof.
  unfold py_getitem. destruct (Z.leb_spec 0 (Z.of_nat k)); [|lia].
  now rewrite Nat2Z.id.
Qed.

Lemma py_getitem_is_Some {A : Type} (l : list A) (i : Z) :
  is_Some (py_getitem l i) <-> index_in_range (length l) i.
Proof.
  unfold py_getitem, index_in_range.
  destruct (Z.leb_spec 0 i).
  - rewrite lookup_lt_is_Some. lia.
  - destruct (Z.leb_spec (- Z.of_nat (length l)) i).
    + rewrite lookup_lt_is_Some. lia.
    + split; [intros [x Hx]; discriminate | lia].
Qed.

Lemma apply_order_is_Some {A : Type} (lanes : list A) (rx_order : list Z) :
  is_Some (apply_order lanes rx_order) <->
  Forall (index_in_range (length lanes)) rx_order.
Proof.
  unfold apply_order. rewrite mapM_is_Some.
  apply Forall_iff. intros i. apply py_getitem_is_Some.
Qed.

Lemma apply_order_None {A : Type} (lanes : list A) (rx_order : list Z) :
  apply_order lanes rx_order = None <->
  Exists (fun i => ~ index_in_range (length lanes) i) rx_order.
Proof.
  unfold apply_order. rewrite mapM_None.
  split; intros H; (eapply Exists_impl; [exact H|]); intros i; cbn;
    rewrite <- py_getitem_is_Some, <- eq_None_not_Some; tauto.
Qed.

Lemma index_lookup {A : Type} `{EqDecision A} (x : A) (l : list A) (i : nat) :
  index x l = Some i -> l !! i = Some x.
Proof.
  revert i. induction l as [|y l IH]; intros i; cbn; [discriminate|].
  destruct (decide (y = x)) as [->|].
  - intros [= <-]. reflexivity.
  - destruct (index x l) as [k|]; cbn; [|discriminate].
    intros [= <-]. cbn. now apply IH.
Qed.

Lemma index_is_Some {A : Type} `{EqDecision A} (x : A) (l : list A) :
  x ∈ l -> is_Some (index x l).
Proof.
  induction 1 as [y l|y z l Hin IH]; cbn.
  - rewrite decide_True by reflexivity. eauto.
  - destruct (decide (z = y)); [eauto|].
    destruct IH as [k ->]. cbn. eauto.
Qed.

Lemma identity_order_elem (lanes : nat) (x : Z) :
  x ∈ identity_order lanes <-> (0 <= x < Z.of_nat lanes)%Z.
Proof.
  unfold identity_order. rewrite list_elem_of_fmap. split.
  - intros (k & -> & Hk). apply elem_of_seq in Hk. lia.
  - intros Hx. exists (Z.to_nat x). split; [lia|]. apply elem_of_seq. lia.
Qed.

Lemma length_identity_order (lanes : nat) : length (identity_order lanes) = lanes.
Proof. unfold identity_order. now rewrite length_map, length_seq. Qed.

(** A permutation of the lanes has an inverse, and reordering by the list
    and then by its inverse gives the lanes back. *)
Lemma apply_order_inverse {A : Type} (lanes : list A) (rx_order : list Z) :
  Permutation rx_order (identity_order (length lanes)) ->
  exists l inv,
    apply_order lanes rx_order = Some l /\
    inverse_order rx_order = Some inv /\
    apply_order l inv = Some lanes.
Proof.
  intros Hperm.
  assert (Hlen : length rx_order = length lanes).
  { rewrite (Permutation_length Hperm). apply length_identity_order. }
  assert (Hin : forall x, x ∈ rx_order <-> (0 <= x < Z.of_nat (length lanes))%Z).
  { intros x. rewrite <- identity_order_elem. now rewrite Hperm. }
  destruct (proj2 (apply_order_is_Some lanes rx_order)) as [l Hl].
  { apply Forall_forall. intros x Hx%Hin. unfold index_in_range. lia. }
  destruct (mapM_is_Some_2 (fun j => Z.of_nat <$> index (Z.of_nat j) rx_order)
              (seq 0 (length rx_order))) as [inv Hinv].
  { apply Forall_forall. intros j Hj%elem_of_seq. cbn.
    apply fmap_is_Some, index_is_Some, Hin. lia. }
  exists l, inv. split; [exact Hl|]. split; [exact Hinv|].
  pose proof (mapM_Some_1 _ _ _ Hl) as Fl.
  pose proof (mapM_Some_1 _ _ _ Hinv) as Finv.
  apply mapM_Some_2.
  apply Forall2_same_length_lookup_2.
  { rewrite <- (Forall2_length _ _ _ Finv), length_seq. exact Hlen. }
  intros j x y Hx Hy.
  destruct (Forall2_lookup_r _ _ _ _ _ Finv Hx) as (j' & Hj' & Hidx).
  apply lookup_seq in Hj' as [-> Hj]. cbn in Hidx.
  destruct (index (Z.of_nat j) rx_order) as [i|] eqn:Hi; [|discriminate].
  injection Hidx as <-.
  apply index_lookup in Hi.
  destruct (Forall2_lookup_l _ _ _ _ _ Fl Hi) as (y' & Hy' & Hget).
  rewrite py_getitem_of_nat in Hget. rewrite py_getitem_of_nat.
  congruence.
Qed.

(** ** The three ways the constructor ends *)

Lemma BaseSoC_with_cases (scf : float) (rx_order : list Z) :
  (length rx_order <> 4 /\ length rx_order <> 8 /\
   exists d0,
     _CRG scf empty_design = Ok tt d0 /\
     BaseSoC_with scf rx_order = Raise NotImplementedError d0)
  \/
  ((length rx_order = 4 \/ length rx_order = 8) /\
   exists locals d1,
     bringup_outcome scf (length rx_order) = Ok locals d1 /\
     bringup_ok (length rx_order) locals d1 /\
     match apply_order (jesd_phys locals) rx_order with
     | None => BaseSoC_with scf rx_order = Raise IndexError d1
     | Some l =>
         exists d2, BaseSoC_with scf rx_order = Ok (locals, l) d2 /\
                    link_ok scf locals l d1 d2
     end).
Proof.
  destruct (decide (length rx_order = 4 \/ length rx_order = 8)) as [Hs|Hn].
  - right. split; [exact Hs|].
    destruct (bringup_supported scf _ Hs) as (locals & d1 & Hb & Hok & Hlink).
    exists locals, d1. split; [exact Hb|]. split; [exact Hok|].
    rewrite BaseSoC_with_unfold, Hb.
    destruct (apply_order (jesd_phys locals) rx_order) as [l|]; [|reflexivity].
    destruct (Hlink l) as (d2 & Hd2 & Hl). exists d2. split; assumption.
  - left. assert (H4 : length rx_order <> 4) by tauto.
    assert (H8 : length rx_order <> 8) by tauto.
    split; [exact H4|]. split; [exact H8|].
    destruct (bringup_unsupported scf _ H4 H8) as (d0 & Hcrg & Hb & _).
    exists d0. split; [exact Hcrg|].
    now rewrite BaseSoC_with_unfold, Hb.
Qed.

Lemma length_jesd_phys (lanes : nat) (locals : JesdLocals) (d : Design) :
  bringup_ok lanes locals d -> length (jesd_phys locals) = lanes.
Proof.
  intros H. rewrite <- (length_map GTH4.n), (bu_phys _ _ _ H). apply length_seq.
Qed.

Lemma BaseSoC_with_Ok (scf : float) (rx_order : list Z)
    (locals : JesdLocals) (phys_rx : list GTH4.t) (d : Design) :
  BaseSoC_with scf rx_order = Ok (locals, phys_rx) d ->
  (length rx_order = 4 \/ length rx_order = 8) /\
  exists d1,
    bringup_outcome scf (length rx_order) = Ok locals d1 /\
    bringup_ok (length rx_order) locals d1 /\
    apply_order (jesd_phys locals) rx_order = Some phys_rx /\
    link_ok scf locals phys_rx d1 d.
Proof.
  intros H.
  destruct (BaseSoC_with_cases scf rx_order)
    as [(_ & _ & d0 & _ & Hr) | (Hs & locals' & d1 & Hb & Hok & Hm)].
  - congruence.
  - split; [exact Hs|].
    destruct (apply_order (jesd_phys locals') rx_order) as [l|] eqn:Hl.
    + destruct Hm as (d2 & Hd2 & Hlk). rewrite Hd2 in H.
      injection H as -> -> ->. exists d1. rewrite Hl. auto.
    + congruence.
Qed.

Section Resets.
Variable stages : nat.

Lemma chain_after_0 : chain_after stages 0 = replicate stages true.
Proof.
  unfold chain_after. generalize 0 at 2. induction stages as [|n IH]; intros s.
  - reflexivity.
  - cbn. f_equal. apply IH.
Qed.

Lemma lookup_chain_after (k i : nat) :
  chain_after stages k !! i
  = if decide (i < stages) then Some (negb (i <? k)%nat) else None.
Proof.
  unfold chain_after. rewrite list_lookup_fmap.
  destruct (decide (i < stages)).
  - now rewrite lookup_seq_lt.
  - rewrite lookup_seq_ge by lia. reflexivity.
Qed.

Lemma length_chain_after (k : nat) : length (chain_after stages k) = stages.
Proof. unfold chain_after. now rewrite length_fmap, length_seq. Qed.

Lemma chain_after_edge (k : nat) :
  take stages (false :: chain_after stages k) = chain_after stages (S k).
Proof.
  apply list_eq. intros i. rewrite lookup_chain_after.
  destruct (decide (i < stages)) as [Hi|Hi].
  - rewrite lookup_take_lt by lia. destruct i as [|i]; [reflexivity|].
    cbn. rewrite lookup_chain_after, decide_True by lia. reflexivity.
  - apply lookup_ge_None. rewrite length_take. cbn. rewrite length_chain_after. lia.
Qed.

Lemma last_chain_after (k : nat) (a : bool) :
  ars_rst a (chain_after stages k)
  = if decide (stages = 0) then a else (k <? stages)%nat.
Proof.
  unfold ars_rst, chain_after. destruct stages as [|n]; [reflexivity|].
  rewrite seq_S, fmap_app, decide_False by lia.
  cbn [fmap list_fmap Nat.add]. rewrite last_last.
  destruct (Nat.ltb_spec n k), (Nat.ltb_spec k (S n)); cbn; (reflexivity || lia).
Qed.

Lemma step_special_frame (ev : Event) (r : Resets) (sp : Special) (cd : string) :
  drives cd sp = false ->
  chains (step_special stages ev r sp) !! cd = chains r !! cd /\
  rst (step_special stages ev r sp) !! cd = rst r !! cd.
Proof.
  destruct sp as [| cd' e |]; cbn; intros H; try (split; reflexivity).
  apply bool_decide_eq_false in H.
  split; now rewrite lookup_insert_ne.
Qed.

Lemma fold_step_frame (ev : Event) (sps : list Special) (r : Resets) (cd : string) :
  List.filter (drives cd) sps = [] ->
  chains (fold_left (step_special stages ev) sps r) !! cd = chains r !! cd /\
  rst (fold_left (step_special stages ev) sps r) !! cd = rst r !! cd.
Proof.
  revert r. induction sps as [|sp sps IH]; intros r; cbn; [tauto|].
  destruct (drives cd sp) eqn:Hsp; [discriminate|]. intros Hf.
  destruct (IH (step_special stages ev r sp) Hf) as [-> ->].
  now apply step_special_frame.
Qed.

(** A reset line no synchronizer drives keeps its value. *)
Lemma step_frame (d : Design) (r : Resets) (ev : Event) (cd : string) :
  reset_drivers cd d = [] ->
  chains (step stages d r ev) !! cd = chains r !! cd /\
  rst (step stages d r ev) !! cd = rst r !! cd.
Proof. apply fold_step_frame. Qed.

Lemma run_frame (d : Design) (evs : list Event) (r : Resets) (cd : string) :
  reset_drivers cd d = [] ->
  rst (run stages d evs r) !! cd = rst r !! cd.
Proof.
  intros Hd. unfold run. revert r.
  induction evs as [|ev evs IH]; intros r; cbn; [reflexivity|].
  rewrite IH. now apply step_frame.
Qed.

Lemma fold_step_driven (ev : Event) (sps : list Special) (r : Resets)
    (cd : string) (e : Expr) :
  List.filter (drives cd) sps = [AsyncResetSynchronizer cd e] ->
  chains (fold_left (step_special stages ev) sps r) !! cd
    = Some (ars_next stages ev cd e r) /\
  rst (fold_left (step_special stages ev) sps r) !! cd
    = Some (ars_rst (eval (event_env ev) e) (ars_next stages ev cd e r)).
Proof.
  revert r. induction sps as [|sp sps IH]; intros r; cbn; [discriminate|].
  destruct (drives cd sp) eqn:Hsp.
  - intros [= -> Hrest].
    destruct (fold_step_frame ev sps
                (step_special stages ev r (AsyncResetSynchronizer cd e)) cd Hrest)
      as [-> ->].
    cbn. rewrite !lookup_insert_eq. split; reflexivity.
  - intros Hf. destruct (IH (step_special stages ev r sp) Hf) as [-> ->].
    unfold ars_next.
    destruct (step_special_frame ev r sp cd Hsp) as [-> _]. split; reflexivity.
Qed.

Lemma step_driven (d : Design) (r : Resets) (ev : Event) (cd : string) (e : Expr) :
  reset_drivers cd d = [AsyncResetSynchronizer cd e] ->
  chains (step stages d r ev) !! cd = Some (ars_next stages ev cd e r) /\
  rst (step stages d r ev) !! cd
    = Some (ars_rst (eval (event_env ev) e) (ars_next stages ev cd e r)).
Proof. apply fold_step_driven. Qed.

(** Assertion: whatever the state and the event, a high input gives a
    high reset line, with every flip-flop preset. *)
Lemma step_assert (d : Design) (r : Resets) (ev : Event) (cd : string) (e : Expr) :
  reset_drivers cd d = [AsyncResetSynchronizer cd e] ->
  eval (event_env ev) e = true ->
  chains (step stages d r ev) !! cd = Some (chain_after stages 0) /\
  rst (step stages d r ev) !! cd = Some true.
Proof.
  intros Hd Ha. destruct (step_driven d r ev cd e Hd) as [-> ->].
  unfold ars_next, ars_edge, ars_level. rewrite Ha.
  rewrite <- chain_after_0.
  destruct (clocks ev cd); (split; [reflexivity|]);
    rewrite last_chain_after;
    (destruct (decide (stages = 0)); [reflexivity|]);
    f_equal; apply Nat.ltb_lt; lia.
Qed.

(** Release: with the input low, the line stays high until [stages]
    rising edges of the destination clock have gone by. *)
Lemma run_release (d : Design) (cd : string) (e : Expr) (evs : list Event)
    (r : Resets) (k : nat) :
  reset_drivers cd d = [AsyncResetSynchronizer cd e] ->
  Forall (fun ev => eval (event_env ev) e = false) evs ->
  chains r !! cd = Some (chain_after stages k) ->
  rst r !! cd = Some (k <? stages)%nat ->
  chains (run stages d evs r) !! cd = Some (chain_after stages (k + edges cd evs)) /\
  rst (run stages d evs r) !! cd = Some (k + edges cd evs <? stages)%nat.
Proof.
  intros Hd Hlow. revert r k.
  induction Hlow as [|ev evs Hev _ IH]; intros r k Hc Hr.
  - cbn. rewrite Nat.add_0_r. split; assumption.
  - cbn [run fold_left]. unfold edges. cbn [List.filter].
    destruct (step_driven d r ev cd e Hd) as [Hc' Hr'].
    unfold ars_next, ars_edge, ars_level in Hc', Hr'.
    rewrite Hev, Hc in Hc', Hr'. unfold default, from_option, id in Hc', Hr'.
    destruct (clocks ev cd) eqn:Hclk.
    + rewrite chain_after_edge in Hc', Hr'.
      rewrite last_chain_after in Hr'.
      destruct (IH (step stages d r ev) (S k) Hc') as [IHc IHr].
      { rewrite Hr'. destruct (decide (stages = 0)) as [->|]; reflexivity. }
      unfold run, edges in IHc, IHr. cbn [length].
      rewrite <- Nat.add_succ_comm. split; assumption.
    + rewrite last_chain_after in Hr'.
      destruct (IH (step stages d r ev) k Hc') as [IHc IHr].
      { rewrite Hr'. destruct (decide (stages = 0)) as [->|]; reflexivity. }
      split; assumption.
Qed.
End Resets.

(** ** Combined ready signals *)

Lemma all_lanes_false (flag : nat -> Signal) (lanes : nat) (env : Signal -> bool) :
  all_lanes flag lanes env = false <->
  exists i, i < lanes /\ env (flag i) = false.
Proof.
  unfold all_lanes. rewrite <- not_true_iff_false, forallb_forall. split.
  - intros H. destruct (decide (Exists (fun i => env (flag i) = false) (seq 0 lanes)))
      as [He|He].
    + apply Exists_exists in He as (i & Hi%elem_of_seq & Hf). exists i. split; [lia|exact Hf].
    + exfalso. apply H. intros i Hi. apply not_false_iff_true. intros Hf.
      apply He, Exists_exists. exists i. split; [now apply list_elem_of_In|exact Hf].
  - intros (i & Hi & Hf) H. specialize (H i). rewrite Hf in H.
    discriminate H. apply in_seq. lia.
Qed.

Lemma all_lanes_true (flag : nat -> Signal) (lanes : nat) (env : Signal -> bool) :
  all_lanes flag lanes env = true <->
  forall i, i < lanes -> env (flag i) = true.
Proof.
  unfold all_lanes. rewrite forallb_forall. split.
  - intros H i Hi. apply H, in_seq. lia.
  - intros H i Hi%in_seq. apply H. lia.
Qed.

Lemma eval_tx_init_done (lanes : nat) (locals : JesdLocals) (d : Design)
    (env : Signal -> bool) :
  bringup_ok lanes locals d ->
  eval env (jesd_phys_tx_init_done locals) = all_lanes tx_init_done lanes env.
Proof.
  intros H. rewrite (eval_reduce_and env _ _ (bu_tx _ _ _ H)).
  rewrite forallb_map. unfold all_lanes.
  rewrite <- (bu_phys _ _ _ H), forallb_map. reflexivity.
Qed.

Lemma eval_rx_init_done (lanes : nat) (locals : JesdLocals) (d : Design)
    (env : Signal -> bool) :
  bringup_ok lanes locals d ->
  eval env (jesd_phys_rx_init_done locals) = all_lanes rx_init_done lanes env.
Proof.
  intros H. rewrite (eval_reduce_and env _ _ (bu_rx _ _ _ H)).
  rewrite forallb_map. unfold all_lanes.
  rewrite <- (bu_phys _ _ _ H), forallb_map. reflexivity.
Qed.

Lemma all_lanes_drop (flag : nat -> Signal) (lanes i : nat) (env : Signal -> bool) :
  i < lanes -> all_lanes flag lanes (drop_signal (flag i) env) = false.
Proof.
  intros Hi. apply all_lanes_false. exists i. split; [exact Hi|].
  unfold drop_signal. now rewrite decide_True.
Qed.

Lemma final_reset_drivers (scf : float) (lanes : nat) (locals : JesdLocals)
    (l : list GTH4.t) (d1 d2 : Design) :
  bringup_ok lanes locals d1 -> link_ok scf locals l d1 d2 ->
  reset_drivers "jesd" d2
    = [AsyncResetSynchronizer "jesd"
         (jesd_reset (jesd_phys_tx_init_done locals) (jesd_phys_rx_init_done locals))] /\
  reset_drivers "jesd_156_25" d2 = [] /\
  reset_drivers "jesd_78_125" d2 = [] /\
  reset_drivers "clk156_25" d2 = [].
Proof.
  intros Hb Hl. unfold reset_drivers.
  rewrite (lk_specials _ _ _ _ _ Hl), (bu_specials _ _ _ Hb).
  repeat split; reflexivity.
Qed.

Lemma run_specials (stages : nat) (d d' : Design) (evs : list Event) (r : Resets) :
  specials d = specials d' -> run stages d evs r = run stages d' evs r.
Proof.
  intros H. unfold run. revert r.
  induction evs as [|ev evs IH]; intros r; cbn; [reflexivity|].
  rewrite IH. unfold step. now rewrite H.
Qed.

(** C2 (combined ready).  When the constructor completes, for every
    valuation of the init-done flags, [jesd_phys_tx_init_done] is the
    conjunction of [tx_init.done] over the lanes [0 .. N-1] and
    [jesd_phys_rx_init_done] the conjunction of [rx_init.done]; forcing the
    flag of any single lane low makes the combined signal of that direction
    low under the same valuation, whichever lane it is. *)
Theorem combined_ready_is_conjunction (scf : float) (rx_order : list Z)
    (locals : JesdLocals) (phys_rx : list GTH4.t) (d : Design) :
  BaseSoC_with scf rx_order = Ok (locals, phys_rx) d ->
  let lanes := length rx_order in
  jesd_lanes locals = lanes /\
  forall env : Signal -> bool,
    eval env (jesd_phys_tx_init_done locals) = all_lanes tx_init_done lanes env /\
    eval env (jesd_phys_rx_init_done locals) = all_lanes rx_init_done lanes env /\
    (eval env (jesd_phys_tx_init_done locals) = true <->
     forall i, i < lanes -> env (tx_init_done i) = true) /\
    (eval env (jesd_phys_rx_init_done locals) = true <->
     forall i, i < lanes -> env (rx_init_done i) = true) /\
    (forall i, i < lanes ->
       eval (drop_signal (tx_init_done i) env) (jesd_phys_tx_init_done locals) = false) /\
    (forall i, i < lanes ->
       eval (drop_signal (rx_init_done i) env) (jesd_phys_rx_init_done locals) = false).
Proof.
  intros H lanes. destruct (BaseSoC_with_Ok _ _ _ _ _ H) as (_ & d1 & _ & Hb & _).
  split; [apply (bu_lanes _ _ _ Hb)|]. intros env.
  rewrite !(eval_tx_init_done _ _ _ _ Hb), !(eval_rx_init_done _ _ _ _ Hb).
  repeat split; try apply all_lanes_true.
  - intros i Hi. rewrite (eval_tx_init_done _ _ _ _ Hb). now apply all_lanes_drop.
  - intros i Hi. rewrite (eval_rx_init_done _ _ _ _ Hb). now apply all_lanes_drop.
Qed.

Lemma combined_ready_is_conjunction_witness :
  exists locals phys_rx d,
    BaseSoC 125e6%float = Ok (locals, phys_rx) d /\
    forall env : Signal -> bool,
      eval (drop_signal (tx_init_done 2) env) (jesd_phys_tx_init_done locals) = false.
Proof.
  do 3 eexists. split; [vm_compute; reflexivity|].
  intros env.
  refine (proj1 (proj2 (proj2 (proj2 (proj2 (proj2
    (combined_ready_is_conjunction 125e6%float adc08dj_phy_rx_order _ _ _ _) env))))) 2 _).
  - vm_compute. reflexivity.
  - vm_compute. lia.
Defined.

Lemma eval_jesd_reset (lanes : nat) (locals : JesdLocals) (d : Design)
    (env : Signal -> bool) :
  bringup_ok lanes locals d ->
  eval env (jesd_reset (jesd_phys_tx_init_done locals) (jesd_phys_rx_init_done locals))
  = negb (all_lanes tx_init_done lanes env && all_lanes rx_init_done lanes env).
Proof.
  intros H. cbn.
  now rewrite (eval_tx_init_done _ _ _ _ H), (eval_rx_init_done _ _ _ _ H).
Qed.

(** C1 (reset barrier).  When the constructor completes, the one driver of
    the reset of [cd_jesd] is the synchronizer fed with
    [~(jesd_phys_tx_init_done & jesd_phys_rx_init_done)].  For every
    valuation of the lanes' flags that request is
    [NOT (all_tx_ready AND all_rx_ready)], that is, it is high exactly when
    at least one [tx_init.done] or [rx_init.done] of the lanes [0 .. N-1] is
    low.  Assertion does not lag: whatever the state and the event (levels
    changing, with or without a clock edge of any domain), a high request
    gives a high reset line.  Release lags: once the request is low the line
    stays high until [stages] rising edges of the [jesd] clock have gone by,
    which is at least one edge.  The timing of the synchronizer is the one
    the specification gives in section 4.3, see [ars_level]. *)
Theorem jesd_reset_barrier (stages : nat) (scf : float) (rx_order : list Z)
    (locals : JesdLocals) (phys_rx : list GTH4.t) (d : Design) :
  1 <= stages ->
  BaseSoC_with scf rx_order = Ok (locals, phys_rx) d ->
  let lanes := length rx_order in
  let request :=
    jesd_reset (jesd_phys_tx_init_done locals) (jesd_phys_rx_init_done locals) in
  reset_drivers "jesd" d = [AsyncResetSynchronizer "jesd" request] /\
  (forall env,
     eval env request
     = negb (all_lanes tx_init_done lanes env && all_lanes rx_init_done lanes env)) /\
  (forall env,
     eval env request = true <->
     exists i, i < lanes /\
       (env (tx_init_done i) = false \/ env (rx_init_done i) = false)) /\
  (forall r ev,
     eval (event_env ev) request = true ->
     rst (step stages d r ev) !! "jesd" = Some true) /\
  (forall r ev evs,
     eval (event_env ev) request = true ->
     Forall (fun ev' => eval (event_env ev') request = false) evs ->
     rst (run stages d evs (step stages d r ev)) !! "jesd"
     = Some (edges "jesd" evs <? stages)%nat).
Proof.
  intros Hst H lanes request.
  destruct (BaseSoC_with_Ok _ _ _ _ _ H) as (_ & d1 & _ & Hb & _ & Hl).
  destruct (final_reset_drivers _ _ _ _ _ _ Hb Hl) as (Hd & _).
  fold request in Hd.
  split; [exact Hd|]. split; [intros env; apply (eval_jesd_reset _ _ _ _ Hb)|].
  split; [|split].
  - intros env. unfold request. rewrite (eval_jesd_reset _ _ _ _ Hb).
    rewrite negb_true_iff, andb_false_iff, !all_lanes_false. fold lanes. split.
    + intros [(i & Hi & Hf) | (i & Hi & Hf)]; exists i; auto.
    + intros (i & Hi & [Hf | Hf]); [left | right]; exists i; auto.
  - intros r ev Ha. apply (step_assert stages d r ev "jesd" request Hd Ha).
  - intros r ev evs Ha Hlow.
    destruct (step_assert stages d r ev "jesd" request Hd Ha) as [Hc Hr].
    destruct (run_release stages d "jesd" request evs (step stages d r ev) 0 Hd Hlow Hc)
      as [_ Hrun].
    + rewrite Hr. f_equal. symmetry. apply Nat.ltb_lt. lia.
    + exact Hrun.
Qed.

Lemma jesd_reset_barrier_witness :
  exists locals phys_rx d,
    BaseSoC 125e6%float = Ok (locals, phys_rx) d /\
    forall r ev,
      eval (event_env ev)
        (jesd_reset (jesd_phys_tx_init_done locals) (jesd_phys_rx_init_done locals))
      = true ->
      rst (step 2 d r ev) !! "jesd" = Some true.
Proof.
  do 3 eexists. split; [vm_compute; reflexivity|].
  refine (proj1 (proj2 (proj2 (proj2
    (jesd_reset_barrier 2 125e6%float adc08dj_phy_rx_order _ _ _ _ _))))).
  - lia.
  - vm_compute. reflexivity.
Defined.

(** C3 does not hold as stated: a lane order list with a duplicate entry,
    and one with an entry outside [0, N), are both accepted; the constructor
    completes and the core is given the lanes the list selects (a negative
    entry counts from the end, as Python subscripts do). *)
Lemma lane_order_malformed_accepted :
  (lane_order_malformed [0; 0; 2; 1]%Z = true /\
   exists locals phys_rx d,
     BaseSoC_with 125e6%float [0; 0; 2; 1]%Z = Ok (locals, phys_rx) d /\
     map GTH4.n phys_rx = [0; 0; 2; 1]) /\
  (lane_order_malformed [-1; 0; 1; 2]%Z = true /\
   exists locals phys_rx d,
     BaseSoC_with 125e6%float [-1; 0; 1; 2]%Z = Ok (locals, phys_rx) d /\
     map GTH4.n phys_rx = [3; 0; 1; 2]).
Proof.
  split; (split; [vm_compute; reflexivity|]);
    do 3 eexists; (split; [vm_compute; reflexivity|]); reflexivity.
Qed.

(** C3 (amended).  For a lane order list of a supported length [N] (4 or
    8): if some entry lies outside [-N, N) the constructor stops with
    [IndexError] while building [jesd_phys_rx], before the protocol core is
    created; if every entry lies in [-N, N) the constructor completes,
    duplicates and negative entries included, and the core receives the
    lanes the list selects. *)
Theorem lane_order_fault (scf : float) (rx_order : list Z) :
  length rx_order = 4 \/ length rx_order = 8 ->
  let lanes := length rx_order in
  (Exists (fun i => ~ index_in_range lanes i) rx_order ->
   exists d,
     BaseSoC_with scf rx_order = Raise IndexError d /\
     lookup_submodule "jesd_rx_core" d = None) /\
  (Forall (index_in_range lanes) rx_order ->
   exists locals phys_rx d,
     BaseSoC_with scf rx_order = Ok (locals, phys_rx) d /\
     apply_order (jesd_phys locals) rx_order = Some phys_rx /\
     exists core,
       lookup_submodule "jesd_rx_core" d = Some (LiteJESD204BCoreRX core) /\
       core_phys core = phys_rx).
Proof.
  intros Hs lanes.
  destruct (BaseSoC_with_cases scf rx_order)
    as [(H4 & H8 & _) | (_ & locals & d1 & _ & Hb & Hm)]; [lia|].
  pose proof (length_jesd_phys _ _ _ Hb) as Hlen. split.
  - intros Hex. exists d1.
    assert (Hn : apply_order (jesd_phys locals) rx_order = None).
    { apply apply_order_None. now rewrite Hlen. }
    rewrite Hn in Hm. split; [exact Hm|apply (bu_no_core _ _ _ Hb)].
  - intros Hall.
    destruct (proj2 (apply_order_is_Some (jesd_phys locals) rx_order)) as [l Hl].
    { now rewrite Hlen. }
    pose proof Hm as Hm'. rewrite Hl in Hm'. destruct Hm' as (d2 & Hd2 & Hlk).
    exists locals, l, d2. split; [exact Hd2|]. split; [exact Hl|].
    eexists. split; [apply (lk_core _ _ _ _ _ Hlk)|reflexivity].
Qed.

Lemma lane_order_fault_witness :
  (exists d,
     BaseSoC_with 125e6%float [0; 4; 2; 1]%Z = Raise IndexError d /\
     lookup_submodule "jesd_rx_core" d = None) /\
  (exists locals phys_rx d,
     BaseSoC_with 125e6%float [0; 0; -2; 1]%Z = Ok (locals, phys_rx) d /\
     apply_order (jesd_phys locals) [0; 0; -2; 1]%Z = Some phys_rx /\
     exists core,
       lookup_submodule "jesd_rx_core" d = Some (LiteJESD204BCoreRX core) /\
       core_phys core = phys_rx).
Proof.
  split.
  - apply (lane_order_fault 125e6%float [0; 4; 2; 1]%Z).
    + left. reflexivity.
    + apply Exists_cons_tl, Exists_cons_hd. unfold index_in_range. cbn. lia.
  - apply (lane_order_fault 125e6%float [0; 0; -2; 1]%Z).
    + left. reflexivity.
    + repeat constructor; unfold index_in_range; cbn; lia.
Defined.

Lemma jesd_configuration_supported (lanes : nat) (d : Design) :
  lanes = 4 \/ lanes = 8 ->
  jesd_configuration lanes d = Ok (settings_for lanes) d.
Proof. intros [-> | ->]; reflexivity. Qed.

Lemma jesd_configuration_unsupported (lanes : nat) (d : Design) :
  lanes <> 4 -> lanes <> 8 ->
  jesd_configuration lanes d = Raise NotImplementedError d.
Proof.
  intros H4 H8. unfold jesd_configuration.
  destruct (Nat.eqb_spec lanes 2); [reflexivity|].
  destruct (Nat.eqb_spec lanes 4); [contradiction|].
  destruct (Nat.eqb_spec lanes 8); [contradiction|].
  reflexivity.
Qed.

(** C4 (lane count policy).  For every lane count other than 4 and 8 (2
    and 0 among them) the constructor stops with [NotImplementedError] in
    the [if]/[elif]/[else] on [jesd_lanes], with only [_CRG] built.  For 4
    and 8 that statement returns the settings of the count, the constructor
    goes on to the reset synchronizer, and whenever it completes the
    protocol core holds these settings unchanged. *)
Theorem lane_count_policy (scf : float) (rx_order : list Z) :
  let lanes := length rx_order in
  (lanes <> 4 -> lanes <> 8 ->
   (forall d, jesd_configuration lanes d = Raise NotImplementedError d) /\
   exists d0,
     _CRG scf empty_design = Ok tt d0 /\
     BaseSoC_with scf rx_order = Raise NotImplementedError d0) /\
  (lanes = 4 \/ lanes = 8 ->
   (forall d, jesd_configuration lanes d = Ok (settings_for lanes) d) /\
   exists locals d1,
     bringup_outcome scf lanes = Ok locals d1 /\
     (settings_tx locals, settings_rx locals) = settings_for lanes /\
     JESD204BPhysicalSettings.l (JESD204BSettings.phy_settings (settings_rx locals))
     = Z.of_nat lanes /\
     forall locals' phys_rx d,
       BaseSoC_with scf rx_order = Ok (locals', phys_rx) d ->
       locals' = locals /\
       exists core,
         lookup_submodule "jesd_rx_core" d = Some (LiteJESD204BCoreRX core) /\
         core_settings core = settings_rx locals).
Proof.
  intros lanes. split.
  - intros H4 H8. split; [intros d; now apply jesd_configuration_unsupported|].
    destruct (BaseSoC_with_cases scf rx_order)
      as [(_ & _ & d0 & Hcrg & Hr) | (Hs & _)]; [|fold lanes in Hs; lia].
    exists d0. split; assumption.
  - intros Hs. split; [intros d; now apply jesd_configuration_supported|].
    destruct (BaseSoC_with_cases scf rx_order)
      as [(H4 & H8 & _) | (_ & locals & d1 & Ho & Hb & _)]; [fold lanes in H4, H8; lia|].
    exists locals, d1. split; [exact Ho|].
    pose proof (bu_settings _ _ _ Hb) as Hset. fold lanes in Hset.
    rewrite (jesd_configuration_supported lanes d1 Hs) in Hset.
    injection Hset as Hset. split; [now symmetry|]. split.
    { change (settings_rx locals) with (snd (settings_tx locals, settings_rx locals)).
      rewrite <- Hset. unfold settings_for.
      destruct Hs as [Hs | Hs]; rewrite Hs; reflexivity. }
    intros locals' phys_rx d H.
    destruct (BaseSoC_with_Ok _ _ _ _ _ H) as (_ & d1' & Ho' & _ & _ & Hlk).
    rewrite Ho in Ho'. injection Ho' as <- <-.
    split; [reflexivity|].
    eexists. split; [apply (lk_core _ _ _ _ _ Hlk)|reflexivity].
Qed.

Lemma lane_count_policy_witness :
  ((forall d, jesd_configuration 2 d = Raise NotImplementedError d) /\
   exists d0,
     _CRG 125e6%float empty_design = Ok tt d0 /\
     BaseSoC_with 125e6%float [1; 0]%Z = Raise NotImplementedError d0) /\
  ((forall d, jesd_configuration 0 d = Raise NotImplementedError d) /\
   exists d0,
     _CRG 125e6%float empty_design = Ok tt d0 /\
     BaseSoC_with 125e6%float [] = Raise NotImplementedError d0) /\
  (forall d, jesd_configuration 4 d = Ok (settings_for 4) d) /\
  (forall d, jesd_configuration 8 d = Ok (settings_for 8) d).
Proof.
  split; [|split; [|split]].
  - apply (proj1 (lane_count_policy 125e6%float [1; 0]%Z)); cbn; lia.
  - apply (proj1 (lane_count_policy 125e6%float [])); cbn; lia.
  - apply (proj2 (lane_count_policy 125e6%float adc08dj_phy_rx_order)).
    left. reflexivity.
  - apply (proj2 (lane_count_policy 125e6%float order8)).
    right. reflexivity.
Defined.

(** C5 (clock frequencies).  The constructor as the file configures it
    completes, and its [USPMMCM] is fed from [refclk_div2], the [ODIV2]
    output of the reference clock buffer, registered at
    [adc08dj_refclk_freq / 2] = 78.125 MHz, with the period constraint of
    that frequency; it is asked for [jesd_156_25] at
    [adc08dj_jesd_linerate / 40] = 156.25 MHz, [jesd_78_125] at half of it,
    78.125 MHz, and [clk156_25] at 156.25 MHz.  The binary64 computations
    are exact: the floats stand for these rational numbers, which are 2, 1
    and 2 times the registered input frequency. *)
Theorem jesd_clock_frequencies (scf : float) :
  exists locals phys_rx d,
    BaseSoC scf = Ok (locals, phys_rx) d /\
    lookup_submodule "pll" d
    = Some (USPMMCM
              (mkMMCM (-2) (Some (refclk_div2, 78125000%float))
                 [mkClkOut "jesd_156_25" 156250000%float None false;
                  mkClkOut "jesd_78_125" 78125000%float None false;
                  mkClkOut "clk156_25" 156250000%float (Some "bufg") false])) /\
    refclk_buffer ∈ specials d /\
    ("o_ODIV2", Sig refclk_div2) ∈
      match refclk_buffer with
      | Instance _ ports => ports
      | _ => []
      end /\
    (refclk_div2, (1e9 / 78125000)%float) ∈ period_constraints (platform d) /\
    userclk_freq = 156250000%float /\
    Qeq_opt (Q_of_float adc08dj_jesd_linerate) (6250000000 # 1) /\
    Qeq_opt (Q_of_float adc08dj_refclk_freq) (156250000 # 1) /\
    Qeq_opt (Q_of_float userclk_freq) ((6250000000 # 1) / (40 # 1)) /\
    Qeq_opt (Q_of_float userclk_freq) (156250000 # 1) /\
    Qeq_opt (Q_of_float (userclk_freq / 2)%float) ((156250000 # 1) / (2 # 1)) /\
    Qeq_opt (Q_of_float (userclk_freq / 2)%float) (78125000 # 1) /\
    Qeq_opt (Q_of_float 156.25e6%float) (156250000 # 1) /\
    Qeq_opt (Q_of_float (adc08dj_refclk_freq / 2)%float) ((156250000 # 1) / (2 # 1)) /\
    Qeq_opt (Q_of_float (adc08dj_refclk_freq / 2)%float) (78125000 # 1) /\
    Qeq_opt (Q_of_float userclk_freq) ((2 # 1) * (78125000 # 1)) /\
    Qeq_opt (Q_of_float (userclk_freq / 2)%float) ((1 # 1) * (78125000 # 1)) /\
    Qeq_opt (Q_of_float 156.25e6%float) ((2 # 1) * (78125000 # 1)).
Proof.
  destruct (BaseSoC_with_cases scf adc08dj_phy_rx_order)
    as [(H4 & _) | (_ & locals & d1 & _ & Hb & Hm)]; [now contradict H4|].
  pose proof (length_jesd_phys _ _ _ Hb) as Hlen.
  destruct (proj2 (apply_order_is_Some (jesd_phys locals) adc08dj_phy_rx_order))
    as [l Hl].
  { rewrite Hlen. repeat constructor; unfold index_in_range; cbn; lia. }
  rewrite Hl in Hm. destruct Hm as (d2 & Hd2 & Hlk).
  exists locals, l, d2. split; [exact Hd2|].
  split; [rewrite (lk_pll _ _ _ _ _ Hlk); apply (bu_pll _ _ _ Hb)|].
  split; [rewrite (lk_specials _ _ _ _ _ Hlk), (bu_specials _ _ _ Hb);
          apply (list_elem_of_lookup_2 _ 1); reflexivity|].
  split; [apply (list_elem_of_lookup_2 _ 4); reflexivity|].
  split; [rewrite (lk_period _ _ _ _ _ Hlk); apply (bu_period _ _ _ Hb)|].
  repeat split; vm_compute; reflexivity.
Qed.

Lemma eval_link_status_expr (env : Signal -> bool) :
  eval env link_status_expr = env rx_core_enable && env rx_core_jsync.
Proof. cbn. now rewrite andb_diag. Qed.

(** C6 (link status).  When the constructor completes,
    [jesd_link_status] has one combinatorial driver and, for every pair of
    values of the core's [enable] and [jsync], its value is
    [enable AND jsync]: false for enable high and sync low, true for both
    high.  The doubled conjunction of the source has the value of a single
    one. *)
Theorem link_status_is_enable_and_sync (scf : float) (rx_order : list Z)
    (locals : JesdLocals) (phys_rx : list GTH4.t) (d : Design) :
  BaseSoC_with scf rx_order = Ok (locals, phys_rx) d ->
  List.filter (fun '(t, _) => bool_decide (t = jesd_link_status)) (comb d)
  = [(jesd_link_status, link_status_expr)] /\
  forall env : Signal -> bool,
    comb_value d env jesd_link_status
    = Some (env rx_core_enable && env rx_core_jsync) /\
    (env rx_core_enable = true -> env rx_core_jsync = false ->
     comb_value d env jesd_link_status = Some false) /\
    (env rx_core_enable = true -> env rx_core_jsync = true ->
     comb_value d env jesd_link_status = Some true) /\
    eval env link_status_expr = eval env (And (Sig rx_core_enable) (Sig rx_core_jsync)).
Proof.
  intros H. destruct (BaseSoC_with_Ok _ _ _ _ _ H) as (_ & d1 & _ & Hb & _ & Hl).
  assert (Hc : comb d = [(pll_reset "crg_pll", Sig crg_rst);
                         (jesd_link_status, link_status_expr)]).
  { rewrite (lk_comb _ _ _ _ _ Hl), (bu_comb _ _ _ Hb). reflexivity. }
  split; [rewrite Hc; reflexivity|]. intros env.
  assert (Hv : comb_value d env jesd_link_status
               = Some (env rx_core_enable && env rx_core_jsync)).
  { unfold comb_value. rewrite Hc. vm_compute.
    destruct (env rx_core_enable), (env rx_core_jsync); reflexivity. }
  split; [exact Hv|]. split; [|split].
  - intros He Hs. now rewrite Hv, He, Hs.
  - intros He Hs. now rewrite Hv, He, Hs.
  - apply eval_link_status_expr.
Qed.

Lemma link_status_is_enable_and_sync_witness :
  exists locals phys_rx d,
    BaseSoC 125e6%float = Ok (locals, phys_rx) d /\
    comb_value d (fun s => bool_decide (s = rx_core_enable)) jesd_link_status
    = Some false.
Proof.
  do 3 eexists. split; [vm_compute; reflexivity|].
  refine (proj1 (proj2 (proj2
    (link_status_is_enable_and_sync 125e6%float adc08dj_phy_rx_order _ _ _ _)
    (fun s => bool_decide (s = rx_core_enable)))) _ _).
  - vm_compute. reflexivity.
  - reflexivity.
  - reflexivity.
Defined.

(** C7 (end-to-end, eight lanes).  With the lane order list
    [[3,0,2,1,7,4,6,5]] the constructor completes and hands the core the
    lanes in that order.  Let every lane [i] raise its [rx_init.done] at
    time [rx_time i], lane 3 being the last of lanes 0 to 3.  Then at every
    time before lane 3 raises its flag [jesd_phys_rx_init_done] is low,
    whatever the other seven lanes and the other signals do; it is high
    exactly from the time lane 3 and lanes 4 to 7 have all raised theirs. *)
Theorem all_rx_ready_waits_for_lane_3 (scf : float) (rx_time : nat -> nat)
    (other : nat -> Signal -> bool) :
  rx_time 0 <= rx_time 3 ->
  rx_time 1 <= rx_time 3 ->
  rx_time 2 <= rx_time 3 ->
  exists locals phys_rx d,
    BaseSoC_with scf order8 = Ok (locals, phys_rx) d /\
    map GTH4.n phys_rx = [3; 0; 2; 1; 7; 4; 6; 5] /\
    forall t : nat,
      (t < rx_time 3 ->
       eval (lane_timing rx_time other t) (jesd_phys_rx_init_done locals) = false) /\
      (eval (lane_timing rx_time other t) (jesd_phys_rx_init_done locals) = true <->
       rx_time 3 <= t /\ forall i, 4 <= i < 8 -> rx_time i <= t).
Proof.
  intros H0 H1 H2.
  destruct (BaseSoC_with_cases scf order8)
    as [(_ & H8 & _) | (_ & locals & d1 & _ & Hb & Hm)]; [now contradict H8|].
  pose proof (bu_phys _ _ _ Hb) as Hn.
  destruct (apply_order (jesd_phys locals) order8) as [l|] eqn:Hl.
  - destruct Hm as (d2 & Hd2 & _). exists locals, l, d2.
    split; [exact Hd2|]. split.
    + apply mapM_Some_1 in Hl.
      assert (Hget : forall (k : nat) y,
                 py_getitem (jesd_phys locals) (Z.of_nat k) = Some y -> GTH4.n y = k).
      { intros k y. rewrite py_getitem_of_nat. intros Hk.
        assert (Hk' : map GTH4.n (jesd_phys locals) !! k = Some (GTH4.n y))
          by (now rewrite list_lookup_fmap, Hk).
        rewrite Hn in Hk'. apply lookup_seq in Hk'. lia. }
      unfold order8 in Hl.
      repeat match goal with
             | H : Forall2 _ (_ :: _) _ |- _ =>
                 apply Forall2_cons_inv_l in H as (? & ? & ? & H & ->)
             | H : Forall2 _ [] _ |- _ => apply Forall2_nil_inv_l in H as ->
             end.
      cbn [map]. repeat f_equal.
      all: match goal with
           | H : py_getitem _ ?z = Some ?y |- GTH4.n ?y = ?k =>
               apply (Hget k y H)
           end.
    + intros t. rewrite (eval_rx_init_done _ _ _ _ Hb). cbn [length order8].
      assert (Hiff : all_lanes rx_init_done 8 (lane_timing rx_time other t) = true <->
                     forall i, i < 8 -> rx_time i <= t).
      { rewrite all_lanes_true. cbn [lane_timing].
        split; intros H i Hi; specialize (H i Hi); now apply Nat.leb_le. }
      split.
      * intros Ht. apply not_true_iff_false. intros Hr.
        pose proof (proj1 Hiff Hr 3). lia.
      * rewrite Hiff. split.
        -- intros H. split; [apply H; lia|]. intros i Hi. apply H. lia.
        -- intros [H3 H] i Hi.
           destruct (decide (4 <= i)); [apply H; lia|].
           assert (Hc : i = 0 \/ i = 1 \/ i = 2 \/ i = 3) by lia.
           destruct Hc as [-> | [-> | [-> | ->]]]; lia.
  - exfalso. apply apply_order_None in Hl.
    rewrite (length_jesd_phys _ _ _ Hb) in Hl.
    apply Exists_exists in Hl as (i & Hi & Hr). apply Hr.
    unfold order8 in Hi. unfold index_in_range. cbn.
    set_unfold in Hi. lia.
Qed.

Lemma all_rx_ready_waits_for_lane_3_witness :
  exists locals phys_rx d,
    BaseSoC_with 125e6%float order8 = Ok (locals, phys_rx) d /\
    eval (lane_timing (fun i => if decide (i = 3) then 9 else i) (fun _ _ => true) 8)
         (jesd_phys_rx_init_done locals) = false.
Proof.
  destruct (all_rx_ready_waits_for_lane_3 125e6%float
              (fun i => if decide (i = 3) then 9 else i) (fun _ _ => true))
    as (locals & phys_rx & d & H & _ & Ht).
  - vm_compute. lia.
  - vm_compute. lia.
  - vm_compute. lia.
  - exists locals, phys_rx, d. split; [exact H|].
    apply (proj1 (Ht 8)). vm_compute. lia.
Defined.

Lemma adc08dj_phy_rx_order_permutation :
  Permutation adc08dj_phy_rx_order (identity_order (length adc08dj_phy_rx_order)).
Proof.
  change (Permutation [3; 0; 2; 1]%Z [0; 1; 2; 3]%Z).
  apply (Permutation_cons_app [0; 1; 2]%Z [] 3%Z).
  apply perm_skip.
  apply perm_swap.
Qed.

(** C8 (round trip).  For every lane order list that is a permutation of
    [0 .. N-1], reordering an array of [N] lanes by the list succeeds, the
    list has an inverse, and reordering the result by the inverse gives the
    array back.  The configured list [[3, 0, 2, 1]] is such a
    permutation. *)
Theorem lane_order_round_trip (lanes : list GTH4.t) (rx_order : list Z) (d : Design) :
  Permutation rx_order (identity_order (length lanes)) ->
  (exists phys_rx inv,
     reorder lanes rx_order d = Ok phys_rx d /\
     inverse_order rx_order = Some inv /\
     reorder phys_rx inv d = Ok lanes d) /\
  Permutation adc08dj_phy_rx_order (identity_order (length adc08dj_phy_rx_order)).
Proof.
  intros Hperm. split; [|apply adc08dj_phy_rx_order_permutation].
  destruct (apply_order_inverse lanes rx_order Hperm) as (l & inv & Hl & Hinv & Hback).
  exists l, inv. rewrite !reorder_spec, Hl, Hback. auto.
Qed.

Lemma lane_order_round_trip_witness :
  exists locals phys_rx d,
    BaseSoC 125e6%float = Ok (locals, phys_rx) d /\
    exists phys_rx' inv,
      reorder (jesd_phys locals) adc08dj_phy_rx_order d = Ok phys_rx' d /\
      inverse_order adc08dj_phy_rx_order = Some inv /\
      reorder phys_rx' inv d = Ok (jesd_phys locals) d.
Proof.
  do 3 eexists. split; [vm_compute; reflexivity|].
  refine (proj1 (lane_order_round_trip _ adc08dj_phy_rx_order _ _)).
  apply adc08dj_phy_rx_order_permutation.
Defined.

Lemma identity_order_in_range (lanes : nat) (rx_order : list Z) :
  Permutation rx_order (identity_order lanes) ->
  length rx_order = lanes /\ Forall (index_in_range lanes) rx_order.
Proof.
  intros Hperm. split.
  - rewrite (Permutation_length Hperm). apply length_identity_order.
  - apply Forall_forall. intros x Hx. rewrite Hperm in Hx.
    apply identity_order_elem in Hx. unfold index_in_range. lia.
Qed.

Lemma apply_order_lane_numbers (lanes : nat) (locals : JesdLocals) (d : Design)
    (rx_order : list Z) (phys_rx : list GTH4.t) :
  bringup_ok lanes locals d ->
  Forall (fun x => (0 <= x < Z.of_nat lanes)%Z) rx_order ->
  apply_order (jesd_phys locals) rx_order = Some phys_rx ->
  map (fun phy => Z.of_nat (GTH4.n phy)) phys_rx = rx_order.
Proof.
  intros Hb Hr Hk. apply mapM_Some_1 in Hk.
  induction Hk as [|x y o k Hxy _ IH]; [reflexivity|].
  apply Forall_cons in Hr as [Hx Hr]. cbn. f_equal; [|now apply IH].
  rewrite <- (Z2Nat.id x) in Hxy by lia.
  rewrite py_getitem_of_nat in Hxy.
  assert (Hk' : map GTH4.n (jesd_phys locals) !! Z.to_nat x = Some (GTH4.n y))
    by (now rewrite list_lookup_fmap, Hxy).
  rewrite (bu_phys _ _ _ Hb) in Hk'. apply lookup_seq in Hk'. lia.
Qed.

Lemma identity_order_nonneg (lanes : nat) (rx_order : list Z) :
  Permutation rx_order (identity_order lanes) ->
  Forall (fun x => (0 <= x < Z.of_nat lanes)%Z) rx_order.
Proof.
  intros Hperm. apply Forall_forall. intros x Hx. rewrite Hperm in Hx.
  now apply identity_order_elem.
Qed.

(** C9 (the lane order touches the data path only).  For a supported lane
    count and any two permutations of [0 .. N-1] as lane order list, both
    constructors complete with the same local variables: the combined ready
    expressions are reductions over [jesd_phys], the lanes in physical order
    [0 .. N-1], whatever the list.  The lane arrays handed to the core
    follow the respective list, while the specials, the driver of the reset
    of [cd_jesd] and every reset line along every run are the same. *)
Theorem ready_and_reset_ignore_lane_order (scf : float) (lanes : nat)
    (rx_order rx_order' : list Z) :
  lanes = 4 \/ lanes = 8 ->
  Permutation rx_order (identity_order lanes) ->
  Permutation rx_order' (identity_order lanes) ->
  exists locals phys_rx phys_rx' d d',
    BaseSoC_with scf rx_order = Ok (locals, phys_rx) d /\
    BaseSoC_with scf rx_order' = Ok (locals, phys_rx') d' /\
    map GTH4.n (jesd_phys locals) = seq 0 lanes /\
    reduce and_ (map GTH4.tx_init_done (jesd_phys locals))
      = Some (jesd_phys_tx_init_done locals) /\
    reduce and_ (map GTH4.rx_init_done (jesd_phys locals))
      = Some (jesd_phys_rx_init_done locals) /\
    map (fun phy => Z.of_nat (GTH4.n phy)) phys_rx = rx_order /\
    map (fun phy => Z.of_nat (GTH4.n phy)) phys_rx' = rx_order' /\
    reset_drivers "jesd" d = reset_drivers "jesd" d' /\
    specials d = specials d' /\
    forall stages evs r, run stages d evs r = run stages d' evs r.
Proof.
  intros Hs Hp Hp'.
  destruct (identity_order_in_range _ _ Hp) as [Hlen Hr].
  destruct (identity_order_in_range _ _ Hp') as [Hlen' Hr'].
  destruct (BaseSoC_with_cases scf rx_order)
    as [(H4 & H8 & _) | (_ & locals & d1 & Ho & Hb & Hm)]; [lia|].
  destruct (BaseSoC_with_cases scf rx_order')
    as [(H4 & H8 & _) | (_ & locals' & d1' & Ho' & Hb' & Hm')]; [lia|].
  rewrite Hlen in Ho, Hb. rewrite Hlen' in Ho', Hb'.
  rewrite Ho in Ho'. injection Ho' as <- <-.
  pose proof (length_jesd_phys _ _ _ Hb) as Hlp.
  destruct (proj2 (apply_order_is_Some (jesd_phys locals) rx_order)) as [l Hl];
    [now rewrite Hlp|].
  destruct (proj2 (apply_order_is_Some (jesd_phys locals) rx_order')) as [l' Hl'];
    [now rewrite Hlp|].
  rewrite Hl in Hm. rewrite Hl' in Hm'.
  destruct Hm as (d2 & Hd2 & Hlk). destruct Hm' as (d2' & Hd2' & Hlk').
  assert (Hsp : specials d2 = specials d2').
  { now rewrite (lk_specials _ _ _ _ _ Hlk), (lk_specials _ _ _ _ _ Hlk'). }
  exists locals, l, l', d2, d2'.
  split; [exact Hd2|]. split; [exact Hd2'|].
  split; [apply (bu_phys _ _ _ Hb)|].
  split; [apply (bu_tx _ _ _ Hb)|].
  split; [apply (bu_rx _ _ _ Hb)|].
  split; [apply (apply_order_lane_numbers _ _ _ _ _ Hb (identity_order_nonneg _ _ Hp) Hl)|].
  split; [apply (apply_order_lane_numbers _ _ _ _ _ Hb (identity_order_nonneg _ _ Hp') Hl')|].
  split; [unfold reset_drivers; now rewrite Hsp|].
  split; [exact Hsp|].
  intros stages evs r. now apply run_specials.
Qed.

Lemma ready_and_reset_ignore_lane_order_witness :
  exists locals phys_rx phys_rx' d d',
    BaseSoC_with 125e6%float [3; 0; 2; 1]%Z = Ok (locals, phys_rx) d /\
    BaseSoC_with 125e6%float [0; 1; 2; 3]%Z = Ok (locals, phys_rx') d' /\
    map (fun phy => Z.of_nat (GTH4.n phy)) phys_rx = [3; 0; 2; 1]%Z /\
    map (fun phy => Z.of_nat (GTH4.n phy)) phys_rx' = [0; 1; 2; 3]%Z /\
    specials d = specials d'.
Proof.
  destruct (ready_and_reset_ignore_lane_order 125e6%float 4
              [3; 0; 2; 1]%Z [0; 1; 2; 3]%Z)
    as (locals & phys_rx & phys_rx' & d & d' & H & H' & _ & _ & _ & Hn & Hn' & _ & Hsp & _).
  - left. reflexivity.
  - apply adc08dj_phy_rx_order_permutation.
  - reflexivity.
  - exists locals, phys_rx, phys_rx', d, d'. auto.
Defined.

(** C10 (frame of the reset barrier).  When the constructor completes, the
    reset of [cd_jesd] has one driver, the synchronizer of the barrier, and
    no other domain has a synchronizer fed by the barrier; the three outputs
    of the [USPMMCM] are created with [with_reset=False]; and the domains
    [jesd_156_25], [jesd_78_125] and [clk156_25] exist, have no reset driver
    and keep their reset line along every run of events. *)
Theorem only_cd_jesd_reset_is_driven (scf : float) (rx_order : list Z)
    (locals : JesdLocals) (phys_rx : list GTH4.t) (d : Design) :
  BaseSoC_with scf rx_order = Ok (locals, phys_rx) d ->
  let barrier :=
    jesd_reset (jesd_phys_tx_init_done locals) (jesd_phys_rx_init_done locals) in
  reset_drivers "jesd" d = [AsyncResetSynchronizer "jesd" barrier] /\
  (forall cd, AsyncResetSynchronizer cd barrier ∈ specials d -> cd = "jesd") /\
  (exists pll,
     lookup_submodule "pll" d = Some (USPMMCM pll) /\
     map (fun o => (clkout_cd o, clkout_with_reset o)) (mmcm_clkouts pll)
     = [("jesd_156_25", false); ("jesd_78_125", false); ("clk156_25", false)]) /\
  Forall (fun cd =>
            cd ∈ clock_domains d /\
            reset_drivers cd d = [] /\
            forall stages evs r, rst (run stages d evs r) !! cd = rst r !! cd)
         ["jesd_156_25"; "jesd_78_125"; "clk156_25"].
Proof.
  intros H barrier.
  destruct (BaseSoC_with_Ok _ _ _ _ _ H) as (_ & d1 & _ & Hb & _ & Hl).
  destruct (final_reset_drivers _ _ _ _ _ _ Hb Hl) as (Hd & H1 & H2 & H3).
  pose proof (bu_specials _ _ _ Hb) as Hsp.
  rewrite <- (lk_specials _ _ _ _ _ Hl) in Hsp.
  pose proof (bu_clock_domains _ _ _ Hb) as Hcd.
  rewrite <- (lk_clock_domains _ _ _ _ _ Hl) in Hcd.
  split; [exact Hd|]. split; [|split].
  - intros cd Hin. rewrite Hsp in Hin.
    unfold crg_specials, jesd_clocking_specials, barrier, jesd_reset in Hin.
    cbn in Hin.
    repeat (apply elem_of_cons in Hin as [Hin | Hin]; [try discriminate Hin|]).
    + now injection Hin as ->.
    + now apply elem_of_nil in Hin.
  - exists jesd_mmcm. split; [|reflexivity].
    rewrite (lk_pll _ _ _ _ _ Hl). apply (bu_pll _ _ _ Hb).
  - rewrite Hcd.
    repeat (apply Forall_cons; split;
            [split; [|split; [assumption | intros; now apply run_frame]]|]).
    + apply (list_elem_of_lookup_2 _ 3). reflexivity.
    + apply (list_elem_of_lookup_2 _ 4). reflexivity.
    + apply (list_elem_of_lookup_2 _ 6). reflexivity.
    + apply Forall_nil. exact I.
Qed.

Lemma only_cd_jesd_reset_is_driven_witness :
  exists locals phys_rx d,
    BaseSoC 125e6%float = Ok (locals, phys_rx) d /\
    reset_drivers "jesd" d
    = [AsyncResetSynchronizer "jesd"
         (jesd_reset (jesd_phys_tx_init_done locals) (jesd_phys_rx_init_done locals))].
Proof.
  do 3 eexists. split; [vm_compute; reflexivity|].
  refine (proj1 (only_cd_jesd_reset_is_driven 125e6%float adc08dj_phy_rx_order _ _ _ _)).
  vm_compute. reflexivity.
Defined.

(** * Further properties of the constructor *)

Lemma bringup_supported_description (scf : float) (lanes : nat) :
  lanes = 4 \/ lanes = 8 ->
  exists locals d1,
    bringup_outcome scf lanes = Ok locals d1 /\
    bringup_description scf lanes locals d1 /\
    forall l, exists d2,
      (jesd_rx scf locals l;; jesd_link_status_section;; mret (locals, l)) d1
        = Ok (locals, l) d2 /\
      description_ok scf lanes locals l d2.
Proof.
  intros [-> | ->].
  - do 2 eexists. split; [vm_compute; reflexivity|].
    split; [split; reflexivity|].
    intros l. eexists. split; [vm_compute; reflexivity|].
    split; try reflexivity.
    intros i Hi.
    do 4 (destruct i as [|i]; [do 2 eexists; repeat split; reflexivity|]). lia.
  - do 2 eexists. split; [vm_compute; reflexivity|].
    split; [split; reflexivity|].
    intros l. eexists. split; [vm_compute; reflexivity|].
    split; try reflexivity.
    intros i Hi.
    do 8 (destruct i as [|i]; [do 2 eexists; repeat split; reflexivity|]). lia.
Qed.

Lemma BaseSoC_with_Ok_description (scf : float) (rx_order : list Z)
    (locals : JesdLocals) (phys_rx : list GTH4.t) (d : Design) :
  BaseSoC_with scf rx_order = Ok (locals, phys_rx) d ->
  (length rx_order = 4 \/ length rx_order = 8) /\
  apply_order (jesd_phys locals) rx_order = Some phys_rx /\
  description_ok scf (length rx_order) locals phys_rx d /\
  exists d1,
    bringup_outcome scf (length rx_order) = Ok locals d1 /\
    bringup_ok (length rx_order) locals d1 /\
    link_ok scf locals phys_rx d1 d.
Proof.
  intros H.
  destruct (BaseSoC_with_Ok _ _ _ _ _ H) as (Hs & d1 & Ho & Hb & Hl & Hlk).
  split; [exact Hs|]. split; [exact Hl|].
  destruct (bringup_supported_description scf _ Hs) as (locals' & d1' & Ho' & _ & Hd).
  rewrite Ho in Ho'. injection Ho' as <- <-.
  destruct (Hd phys_rx) as (d2 & Hd2 & Hds).
  rewrite BaseSoC_with_unfold, Ho, Hl, Hd2 in H. injection H as <-.
  split; [exact Hds|]. exists d1. auto.
Qed.


Lemma extension_lane_pads (i : nat) :
  i < 8 ->
  extension_resource "adc08dj5200rf_jesd_tx" i = Some (lane_tx_pads i) /\
  extension_resource "adc08dj5200rf_jesd_rx" i = Some (lane_rx_pads i).
Proof.
  intros Hi. do 8 (destruct i as [|i]; [split; reflexivity|]). lia.
Qed.

Lemma supported_le_8 (lanes : nat) : lanes = 4 \/ lanes = 8 -> lanes <= 8.
Proof. lia. Qed.

(** X1 (lane wiring).  When the constructor completes, [self.jesd_phys]
    holds one transceiver per entry of the order list, and the transceiver
    at position [i] has [n = i], sits on the transmit and receive pads
    number [i] of the extension (pins [DP<i>_C2M] and [DP<i>_M2C]), and is
    built with the system clock frequency of the constructor, a data width
    of 20, no clock aligner, both buffers, stream endpoints, and controls
    without auto enable. *)
Theorem lanes_wired_to_their_pads (scf : float) (rx_order : list Z)
    (locals : JesdLocals) (phys_rx : list GTH4.t) (d : Design) :
  BaseSoC_with scf rx_order = Ok (locals, phys_rx) d ->
  length (jesd_phys locals) = length rx_order /\
  forall i phy,
    jesd_phys locals !! i = Some phy ->
    phy = lane_phy scf i (lane_tx_pads i) (lane_rx_pads i).
Proof.
  intros H.
  destruct (BaseSoC_with_Ok_description _ _ _ _ _ H)
    as (Hs & _ & Hds & d1 & _ & Hb & _).
  pose proof (length_jesd_phys _ _ _ Hb) as Hlen.
  split; [exact Hlen|]. intros i phy Hi.
  assert (Hlt : i < length rx_order).
  { rewrite <- Hlen. now apply lookup_lt_Some in Hi. }
  destruct (ds_phys _ _ _ _ _ Hds i Hlt) as (tx & rx & Htx & Hrx & Hp).
  destruct (extension_lane_pads i) as [Htx' Hrx'];
    [pose proof (supported_le_8 _ Hs); lia|].
  congruence.
Qed.

Lemma lanes_wired_to_their_pads_witness :
  exists locals phys_rx d,
    BaseSoC 125e6%float = Ok (locals, phys_rx) d /\
    jesd_phys locals !! 2
    = Some (lane_phy 125e6%float 2 (lane_tx_pads 2) (lane_rx_pads 2)).
Proof.
  do 3 eexists. split; [vm_compute; reflexivity|].
  match goal with
  | |- ?l !! 2 = Some ?p =>
      assert (Hp : exists phy, l !! 2 = Some phy) by (eexists; vm_compute; reflexivity)
  end.
  destruct Hp as [phy Hp]. rewrite Hp. f_equal.
  refine (proj2 (lanes_wired_to_their_pads 125e6%float adc08dj_phy_rx_order _ _ _ _) 2 phy Hp).
  vm_compute. reflexivity.
Defined.

(** X2 (submodule names).  When the constructor completes, the transceiver
    at position [i] of [self.jesd_phys] is the submodule registered under
    the name [jesd_phy<i>], and no two submodules share a name. *)
Theorem phys_registered_by_name (scf : float) (rx_order : list Z)
    (locals : JesdLocals) (phys_rx : list GTH4.t) (d : Design) :
  BaseSoC_with scf rx_order = Ok (locals, phys_rx) d ->
  NoDup (map fst (submodules d)) /\
  forall i phy,
    jesd_phys locals !! i = Some phy ->
    lookup_submodule ("jesd_phy" +:+ pretty i) d = Some (GTH4Phy phy).
Proof.
  intros H.
  destruct (BaseSoC_with_Ok_description _ _ _ _ _ H)
    as (Hs & _ & Hds & d1 & _ & Hb & _).
  pose proof (length_jesd_phys _ _ _ Hb) as Hlen.
  pose proof (bu_phys _ _ _ Hb) as Hn.
  pose proof (ds_submodules _ _ _ _ _ Hds) as Hsub.
  unfold lookup_submodule. rewrite Hsub. clear Hsub Hds H.
  destruct Hs as [Hs | Hs]; rewrite Hs in Hlen, Hn.
  - destruct (jesd_phys locals) as [|p0 [|p1 [|p2 [|p3 [|? ?]]]]]; try discriminate Hlen.
    injection Hn as Hn0 Hn1 Hn2 Hn3.
    unfold phy_submodule. cbn [map]. rewrite Hn0, Hn1, Hn2, Hn3. split.
    + apply (bool_decide_unpack _). vm_compute. exact I.
    + intros i phy Hi.
      do 4 (destruct i as [|i]; [injection Hi as <-; reflexivity|]). discriminate Hi.
  - destruct (jesd_phys locals)
      as [|p0 [|p1 [|p2 [|p3 [|p4 [|p5 [|p6 [|p7 [|? ?]]]]]]]]]; try discriminate Hlen.
    injection Hn as Hn0 Hn1 Hn2 Hn3 Hn4 Hn5 Hn6 Hn7.
    unfold phy_submodule. cbn [map].
    rewrite Hn0, Hn1, Hn2, Hn3, Hn4, Hn5, Hn6, Hn7. split.
    + apply (bool_decide_unpack _). vm_compute. exact I.
    + intros i phy Hi.
      do 8 (destruct i as [|i]; [injection Hi as <-; reflexivity|]). discriminate Hi.
Qed.

Lemma phys_registered_by_name_witness :
  exists locals phys_rx d,
    BaseSoC 125e6%float = Ok (locals, phys_rx) d /\
    NoDup (map fst (submodules d)).
Proof.
  do 3 eexists. split; [vm_compute; reflexivity|].
  refine (proj1 (phys_registered_by_name 125e6%float adc08dj_phy_rx_order _ _ _ _)).
  vm_compute. reflexivity.
Defined.

(** X3 (false paths).  When the constructor completes, the false paths
    declared to the platform are the one of [_CRG] (system clock against
    the MMCM input) and, for every lane, the one between the [jesd] clock
    and the transmit and receive clocks of that lane; none of them relates
    the [jesd] clock to the system clock. *)
Theorem lane_clocks_declared_false_paths (scf : float) (rx_order : list Z)
    (locals : JesdLocals) (phys_rx : list GTH4.t) (d : Design) :
  BaseSoC_with scf rx_order = Ok (locals, phys_rx) d ->
  false_path_constraints (platform d)
  = [ClockSignal "sys"; pll_clkin "crg_pll"]
    :: map lane_false_path (seq 0 (length rx_order)) /\
  (forall i, i < length rx_order ->
     [ClockSignal "jesd"; cd_tx_clk i; cd_rx_clk i]
     ∈ false_path_constraints (platform d)) /\
  (forall clks, clks ∈ false_path_constraints (platform d) ->
     ~ (ClockSignal "sys" ∈ clks /\ ClockSignal "jesd" ∈ clks)).
Proof.
  intros H.
  destruct (BaseSoC_with_Ok_description _ _ _ _ _ H) as (_ & _ & Hds & _).
  pose proof (ds_false_paths _ _ _ _ _ Hds) as Hfp. rewrite Hfp.
  split; [reflexivity|]. split.
  - intros i Hi. right. apply list_elem_of_fmap. exists i.
    split; [reflexivity|]. apply elem_of_seq. lia.
  - intros clks Hin [Hsys Hjesd].
    apply elem_of_cons in Hin as [-> | Hin].
    + refine (bool_decide_eq_false_1 _ _ Hjesd). vm_compute. reflexivity.
    + apply list_elem_of_fmap in Hin as (i & -> & _).
      refine (bool_decide_eq_false_1 _ _ Hsys). vm_compute. reflexivity.
Qed.

Lemma lane_clocks_declared_false_paths_witness :
  exists locals phys_rx d,
    BaseSoC 125e6%float = Ok (locals, phys_rx) d /\
    [ClockSignal "jesd"; cd_tx_clk 3; cd_rx_clk 3]
    ∈ false_path_constraints (platform d).
Proof.
  do 3 eexists. split; [vm_compute; reflexivity|].
  refine (proj1 (proj2
    (lane_clocks_declared_false_paths 125e6%float adc08dj_phy_rx_order _ _ _ _)) 3 _).
  - vm_compute. reflexivity.
  - vm_compute. lia.
Defined.

Lemma settings_rx_lanes (lanes : nat) (locals : JesdLocals) (d : Design) :
  lanes = 4 \/ lanes = 8 ->
  bringup_ok lanes locals d ->
  JESD204BPhysicalSettings.l (JESD204BSettings.phy_settings (settings_rx locals))
  = Z.of_nat lanes /\
  JESD204BSettings.scrambling (settings_rx locals) = scrambling.
Proof.
  intros Hs Hb. pose proof (bu_settings _ _ _ Hb) as Hset.
  rewrite (jesd_configuration_supported lanes d Hs) in Hset.
  injection Hset as Hset.
  change (settings_rx locals) with (snd (settings_tx locals, settings_rx locals)).
  rewrite <- Hset. unfold settings_for.
  destruct Hs as [-> | ->]; split; reflexivity.
Qed.

(** X4 (what the core is given).  When the constructor completes, the
    submodule [jesd_rx_core] holds as many lanes as the order list has
    entries, which is the lane count [L] of its settings; its converter
    data width is eight times that count, its scrambling flag is the one of
    its settings, its JSYNC is the [adc08dj5200rf_sync] pad and its
    reference is [sysref]; [jesd_rx_control] controls that core with the
    system clock frequency of the constructor. *)
Theorem core_matches_lane_count (scf : float) (rx_order : list Z)
    (locals : JesdLocals) (phys_rx : list GTH4.t) (d : Design) :
  BaseSoC_with scf rx_order = Ok (locals, phys_rx) d ->
  exists core,
    lookup_submodule "jesd_rx_core" d = Some (LiteJESD204BCoreRX core) /\
    core_phys core = phys_rx /\
    length (core_phys core) = length rx_order /\
    JESD204BPhysicalSettings.l (JESD204BSettings.phy_settings (core_settings core))
    = Z.of_nat (length (core_phys core)) /\
    core_converter_data_width core = 8 * length (core_phys core) /\
    core_scrambling core = JESD204BSettings.scrambling (core_settings core) /\
    core_jsync core = Some sync_resource /\
    core_jref core = Some sysref /\
    lookup_submodule "jesd_rx_control" d
    = Some (LiteJESD204BCoreControl "jesd_rx_core" scf).
Proof.
  intros H.
  destruct (BaseSoC_with_Ok_description _ _ _ _ _ H)
    as (Hs & Hl & _ & d1 & _ & Hb & Hlk).
  assert (Hlen : length phys_rx = length rx_order).
  { symmetry. apply (length_mapM _ _ _ Hl). }
  destruct (settings_rx_lanes _ _ _ Hs Hb) as [HL Hscr].
  exists (rx_core locals phys_rx).
  split; [apply (lk_core _ _ _ _ _ Hlk)|]. cbn.
  rewrite Hlen, (bu_lanes _ _ _ Hb), HL, Hscr.
  repeat split; try reflexivity; try lia.
  apply (lk_control _ _ _ _ _ Hlk).
Qed.

Lemma core_matches_lane_count_witness :
  exists locals phys_rx d,
    BaseSoC 125e6%float = Ok (locals, phys_rx) d /\
    exists core,
      lookup_submodule "jesd_rx_core" d = Some (LiteJESD204BCoreRX core) /\
      core_converter_data_width core = 8 * length (core_phys core).
Proof.
  do 3 eexists. split; [vm_compute; reflexivity|].
  destruct (core_matches_lane_count 125e6%float adc08dj_phy_rx_order _ _ _
              ltac:(vm_compute; reflexivity))
    as (core & Hc & _ & _ & _ & Hw & _).
  exists core. split; assumption.
Defined.



Lemma py_getitem_selected {A : Type} (l : list A) (i : Z) :
  index_in_range (length l) i ->
  py_getitem l i = l !! selected (length l) i.
Proof.
  unfold index_in_range, py_getitem, selected. intros Hi.
  destruct (Z.leb_spec 0 i).
  - now rewrite Z.mod_small by lia.
  - destruct (Z.leb_spec (- Z.of_nat (length l)) i); [|lia].
    f_equal. f_equal.
    rewrite <- (Z.mod_add i 1) by lia. rewrite Z.mod_small by lia. lia.
Qed.

Lemma selected_lt (lanes : nat) (i : Z) :
  0 < lanes -> selected lanes i < lanes.
Proof.
  intros H. unfold selected.
  pose proof (Z.mod_pos_bound i (Z.of_nat lanes)). lia.
Qed.

Lemma apply_order_selected {A : Type} (lanes : list A) (rx_order : list Z) (l : list A) :
  apply_order lanes rx_order = Some l ->
  Forall2 (fun i x => lanes !! selected (length lanes) i = Some x) rx_order l.
Proof.
  intros H. apply mapM_Some_1 in H.
  eapply Forall2_impl; [exact H|]. intros i x Hx. cbn in Hx.
  rewrite <- py_getitem_selected; [exact Hx|].
  apply py_getitem_is_Some. eauto.
Qed.

Lemma apply_order_lane_positions (lanes : nat) (locals : JesdLocals) (d : Design)
    (rx_order : list Z) (l : list GTH4.t) :
  bringup_ok lanes locals d ->
  apply_order (jesd_phys locals) rx_order = Some l ->
  map GTH4.n l = map (selected lanes) rx_order.
Proof.
  intros Hb Hl.
  pose proof (length_jesd_phys _ _ _ Hb) as Hlen.
  apply apply_order_selected in Hl. rewrite Hlen in Hl.
  pose proof (bu_phys _ _ _ Hb) as Hn. clear Hb Hlen.
  induction Hl as [|i phy o l Hi _ IH]; [reflexivity|].
  cbn [map]. f_equal; [|exact IH].
  assert (Hk : map GTH4.n (jesd_phys locals) !! selected lanes i
               = Some (GTH4.n phy)) by (now rewrite list_lookup_fmap, Hi).
  rewrite Hn in Hk. apply lookup_seq in Hk. lia.
Qed.

(** X5 (which lane sits where).  When the constructor completes, position
    [k] of the lane array handed to the core holds the physical lane
    numbered [rx_order[k] mod N]: the lane [rx_order[k]] itself for an
    entry in [0, N), the lane [N + rx_order[k]] for a negative one. *)
Theorem core_lane_numbers (scf : float) (rx_order : list Z)
    (locals : JesdLocals) (phys_rx : list GTH4.t) (d : Design) :
  BaseSoC_with scf rx_order = Ok (locals, phys_rx) d ->
  map GTH4.n phys_rx = map (selected (length rx_order)) rx_order.
Proof.
  intros H.
  destruct (BaseSoC_with_Ok_description _ _ _ _ _ H)
    as (_ & Hl & _ & d1 & _ & Hb & _).
  apply (apply_order_lane_positions _ _ _ _ _ Hb Hl).
Qed.

Lemma core_lane_numbers_witness :
  exists locals phys_rx d,
    BaseSoC_with 125e6%float [-1; 0; -3; 2]%Z = Ok (locals, phys_rx) d /\
    map GTH4.n phys_rx = [3; 0; 1; 2].
Proof.
  do 3 eexists. split; [vm_compute; reflexivity|].
  refine (core_lane_numbers 125e6%float [-1; 0; -3; 2]%Z _ _ _ _).
  vm_compute. reflexivity.
Defined.

Lemma mapM_Permutation {A B : Type} (f : A -> option B) (l l' : list A) (k : list B) :
  Permutation l l' -> mapM f l = Some k ->
  exists k', mapM f l' = Some k' /\ Permutation k k'.
Proof.
  intros Hp. revert k.
  induction Hp as [|x l l' _ IH|x y l|l l' l'' _ IH1 _ IH2]; intros k Hk.
  - exists k. split; [exact Hk|reflexivity].
  - cbn in Hk |- *. destruct (f x) as [b|]; [|discriminate].
    destruct (mapM f l) as [k0|] eqn:Hk0; [|discriminate].
    cbn in Hk. injection Hk as <-.
    destruct (IH k0 eq_refl) as (k' & -> & Hperm).
    exists (b :: k'). split; [reflexivity|now constructor].
  - cbn in Hk |- *. destruct (f y) as [b|]; [|discriminate].
    destruct (f x) as [c|]; [|discriminate].
    destruct (mapM f l) as [k0|]; [|discriminate].
    cbn in Hk. injection Hk as <-.
    exists (c :: b :: k0). split; [reflexivity|constructor].
  - destruct (IH1 k Hk) as (k1 & Hk1 & Hp1).
    destruct (IH2 k1 Hk1) as (k2 & Hk2 & Hp2).
    exists k2. split; [exact Hk2|now transitivity k1].
Qed.

Lemma apply_order_identity {A : Type} (lanes : list A) :
  apply_order lanes (identity_order (length lanes)) = Some lanes.
Proof.
  unfold apply_order. apply mapM_Some_2.
  apply Forall2_same_length_lookup_2; [apply length_identity_order|].
  intros i x y Hx Hy. unfold identity_order in Hx.
  rewrite list_lookup_fmap in Hx.
  destruct (seq 0 (length lanes) !! i) as [j|] eqn:Hj; [|discriminate].
  apply lookup_seq in Hj as [-> _]. injection Hx as <-.
  now rewrite py_getitem_of_nat.
Qed.

(** X6 (every lane once, or a lane lost).  When the constructor completes:
    if the order list is a permutation of [0 .. N-1], the lane array handed
    to the core is a permutation of [self.jesd_phys], every physical lane
    reaching the core exactly once; if two entries of the list select the
    same lane, some physical lane does not reach the core at all. *)
Theorem core_lanes_permutation_or_lost (scf : float) (rx_order : list Z)
    (locals : JesdLocals) (phys_rx : list GTH4.t) (d : Design) :
  BaseSoC_with scf rx_order = Ok (locals, phys_rx) d ->
  (Permutation rx_order (identity_order (length rx_order)) ->
   Permutation phys_rx (jesd_phys locals)) /\
  (~ NoDup (map (selected (length rx_order)) rx_order) ->
   exists i, i < length rx_order /\ i ∉ map GTH4.n phys_rx).
Proof.
  intros H.
  destruct (BaseSoC_with_Ok_description _ _ _ _ _ H)
    as (Hs & Hl & _ & d1 & _ & Hb & _).
  pose proof (apply_order_lane_positions _ _ _ _ _ Hb Hl) as Hn.
  pose proof (length_jesd_phys _ _ _ Hb) as Hlen. split.
  - intros Hp. rewrite <- Hlen in Hp.
    destruct (mapM_Permutation _ _ _ _ Hp Hl) as (k' & Hk' & Hperm).
    unfold apply_order in Hl. fold (apply_order (jesd_phys locals)
      (identity_order (length (jesd_phys locals)))) in Hk'.
    rewrite apply_order_identity in Hk'. now injection Hk' as <-.
  - intros Hdup.
    destruct (decide (Forall (fun i => i ∈ map GTH4.n phys_rx)
                        (seq 0 (length rx_order)))) as [Hall | Hnot].
    + exfalso. apply Hdup. rewrite <- Hn.
      assert (Hsub : seq 0 (length rx_order) ⊆+ map GTH4.n phys_rx).
      { apply NoDup_submseteq; [apply NoDup_seq|].
        rewrite Forall_forall in Hall. exact Hall. }
      apply submseteq_length_Permutation in Hsub.
      * rewrite <- Hsub. apply NoDup_seq.
      * rewrite length_seq, Hn, length_map. reflexivity.
    + apply not_Forall_Exists in Hnot; [|intros i; apply _].
      apply Exists_exists in Hnot as (i & Hi%elem_of_seq & Hni).
      exists i. split; [lia|exact Hni].
Qed.

Lemma core_lanes_permutation_or_lost_witness :
  (exists locals phys_rx d,
     BaseSoC 125e6%float = Ok (locals, phys_rx) d /\
     Permutation phys_rx (jesd_phys locals)) /\
  (exists locals phys_rx d,
     BaseSoC_with 125e6%float [0; 0; 2; 1]%Z = Ok (locals, phys_rx) d /\
     exists i, i < 4 /\ i ∉ map GTH4.n phys_rx).
Proof.
  split.
  - do 3 eexists. split; [vm_compute; reflexivity|].
    refine (proj1 (core_lanes_permutation_or_lost 125e6%float
                     adc08dj_phy_rx_order _ _ _ _) _).
    + vm_compute. reflexivity.
    + apply adc08dj_phy_rx_order_permutation.
  - do 3 eexists. split; [vm_compute; reflexivity|].
    refine (proj2 (core_lanes_permutation_or_lost 125e6%float
                     [0; 0; 2; 1]%Z _ _ _ _) _).
    + vm_compute. reflexivity.
    + intros Hnd. vm_compute in Hnd.
      apply NoDup_cons in Hnd as [Hnd _]. apply Hnd. left.
Defined.

Lemma py_getitem_normalized {A : Type} (l : list A) (i : Z) :
  index_in_range (length l) i ->
  py_getitem l (Z.of_nat (selected (length l) i)) = py_getitem l i.
Proof.
  intros Hi. rewrite py_getitem_of_nat. symmetry. now apply py_getitem_selected.
Qed.

Lemma apply_order_normalized {A : Type} (lanes : list A) (rx_order : list Z) :
  Forall (index_in_range (length lanes)) rx_order ->
  apply_order lanes (map (fun i => Z.of_nat (selected (length lanes) i)) rx_order)
  = apply_order lanes rx_order.
Proof.
  unfold apply_order. induction 1 as [|i o Hi _ IH]; [reflexivity|].
  cbn. rewrite (py_getitem_normalized _ _ Hi).
  destruct (py_getitem lanes i); [cbn|reflexivity].
  cbn in IH. now rewrite IH.
Qed.

(** X7 (negative entries).  For an order list whose entries all lie in
    [-N, N), replacing every entry by the position it selects (adding [N]
    to the negative ones) leaves the outcome of the constructor unchanged:
    the same exception or the same local variables, lane array and
    description. *)
Theorem negative_entries_normalize (scf : float) (rx_order : list Z) :
  Forall (index_in_range (length rx_order)) rx_order ->
  BaseSoC_with scf (map (fun i => Z.of_nat (selected (length rx_order) i)) rx_order)
  = BaseSoC_with scf rx_order.
Proof.
  intros Hr. rewrite !BaseSoC_with_unfold, length_map.
  destruct (bringup_outcome scf (length rx_order)) as [locals d1|e d1] eqn:Ho;
    [|reflexivity].
  assert (Hlen : length (jesd_phys locals) = length rx_order).
  { destruct (decide (length rx_order = 4 \/ length rx_order = 8)) as [Hs|Hs].
    - destruct (bringup_supported scf _ Hs) as (locals' & d1' & Ho' & Hb & _).
      rewrite Ho in Ho'. injection Ho' as <- <-. apply (length_jesd_phys _ _ _ Hb).
    - destruct (bringup_unsupported scf (length rx_order)) as (d0 & _ & Hf & _);
        [tauto|tauto|congruence]. }
  assert (Heq : apply_order (jesd_phys locals)
                  (map (fun i => Z.of_nat (selected (length rx_order) i)) rx_order)
                = apply_order (jesd_phys locals) rx_order).
  { rewrite <- Hlen in Hr |- *. now apply apply_order_normalized. }
  now rewrite Heq.
Qed.

Lemma negative_entries_normalize_witness :
  BaseSoC_with 125e6%float [3; 0; 1; 2]%Z = BaseSoC_with 125e6%float [-1; 0; -3; 2]%Z.
Proof.
  apply (negative_entries_normalize 125e6%float [-1; 0; -3; 2]%Z).
  repeat constructor; unfold index_in_range; cbn; lia.
Defined.

(** X8 (the ways the constructor ends).  For every order list the
    constructor either completes, stops with [NotImplementedError], or
    stops with [IndexError], and which one is decided by the list alone:
    [NotImplementedError] exactly when its length is neither 4 nor 8,
    otherwise [IndexError] exactly when some entry lies outside [-N, N).
    It never stops with the [TypeError] of [reduce] on an empty list nor
    with the [ConstraintError] of a pad requested twice or not defined. *)
Theorem constructor_outcomes (scf : float) (rx_order : list Z) :
  let lanes := length rx_order in
  match BaseSoC_with scf rx_order with
  | Ok _ _ => (lanes = 4 \/ lanes = 8) /\ Forall (index_in_range lanes) rx_order
  | Raise NotImplementedError _ => lanes <> 4 /\ lanes <> 8
  | Raise IndexError _ =>
      (lanes = 4 \/ lanes = 8) /\ Exists (fun i => ~ index_in_range lanes i) rx_order
  | Raise TypeError _ => False
  | Raise ConstraintError _ => False
  end.
Proof.
  intros lanes.
  destruct (BaseSoC_with_cases scf rx_order)
    as [(H4 & H8 & d0 & _ & ->) | (Hs & locals & d1 & _ & Hb & Hm)]; [split; assumption|].
  pose proof (length_jesd_phys _ _ _ Hb) as Hlen.
  destruct (apply_order (jesd_phys locals) rx_order) as [l|] eqn:Hl.
  - destruct Hm as (d2 & -> & _). split; [exact Hs|].
    unfold lanes. rewrite <- Hlen. apply apply_order_is_Some. eauto.
  - rewrite Hm. split; [exact Hs|].
    apply apply_order_None in Hl. unfold lanes. now rewrite Hlen in Hl.
Qed.



Lemma step_same_reset (stages : nat) (d : Design) (cd : string) (e : Expr)
    (r r' : Resets) (ev ev' : Event) :
  reset_drivers cd d = [AsyncResetSynchronizer cd e] ->
  chains r !! cd = chains r' !! cd ->
  same_for cd e ev ev' ->
  same_reset cd (step stages d r ev) (step stages d r' ev').
Proof.
  intros Hd Hc [Hclk Hev].
  destruct (step_driven stages d r ev cd e Hd) as [Hc1 Hr1].
  destruct (step_driven stages d r' ev' cd e Hd) as [Hc2 Hr2].
  unfold same_reset. rewrite Hc1, Hr1, Hc2, Hr2.
  unfold ars_next. rewrite Hc, Hclk, Hev. split; reflexivity.
Qed.

Lemma run_same_reset (stages : nat) (d : Design) (cd : string) (e : Expr)
    (evs evs' : list Event) (r r' : Resets) :
  reset_drivers cd d = [AsyncResetSynchronizer cd e] ->
  same_reset cd r r' ->
  Forall2 (same_for cd e) evs evs' ->
  same_reset cd (run stages d evs r) (run stages d evs' r').
Proof.
  intros Hd Hr Hevs. revert r r' Hr.
  induction Hevs as [|ev ev' evs evs' Hev _ IH]; intros r r' Hr; [exact Hr|].
  cbn. apply IH. apply (step_same_reset stages d cd e r r' ev ev' Hd); [apply Hr|exact Hev].
Qed.

Lemma all_lanes_same (flag : nat -> Signal) (lanes : nat) (env env' : Signal -> bool) :
  (forall i, i < lanes -> env (flag i) = env' (flag i)) ->
  all_lanes flag lanes env = all_lanes flag lanes env'.
Proof.
  intros H. unfold all_lanes.
  assert (HF : Forall (fun i => env (flag i) = env' (flag i)) (seq 0 lanes)).
  { apply Forall_forall. intros i Hi%elem_of_seq. apply H. lia. }
  induction HF as [|i l Hi _ IH]; cbn; [reflexivity|]. now rewrite Hi, IH.
Qed.

(** X12 (what the reset of [cd_jesd] depends on).  When the constructor
    completes, the reset line of [cd_jesd] along a run is determined by the
    init-done flags of the lanes and by the rising edges of the [jesd]
    clock alone: two runs from states that agree on that reset, whose
    events agree on these, give the same reset line, whatever the other
    signals do, the lock of either MMCM and the reset of [_CRG] among
    them. *)
Theorem jesd_reset_depends_on_lanes_only (stages : nat) (scf : float) (rx_order : list Z)
    (locals : JesdLocals) (phys_rx : list GTH4.t) (d : Design)
    (evs evs' : list Event) (r r' : Resets) :
  BaseSoC_with scf rx_order = Ok (locals, phys_rx) d ->
  same_reset "jesd" r r' ->
  Forall2 (same_for_lanes (length rx_order)) evs evs' ->
  rst (run stages d evs r) !! "jesd" = rst (run stages d evs' r') !! "jesd".
Proof.
  intros H Hr Hevs.
  destruct (BaseSoC_with_Ok _ _ _ _ _ H) as (_ & d1 & _ & Hb & _ & Hl).
  destruct (final_reset_drivers _ _ _ _ _ _ Hb Hl) as (Hd & _).
  refine (proj2 (run_same_reset stages d "jesd" _ evs evs' r r' Hd Hr _)).
  eapply Forall2_impl; [exact Hevs|].
  intros ev ev' [Hclk Hflags]. split; [exact Hclk|].
  rewrite !(eval_jesd_reset _ _ _ _ Hb).
  rewrite (all_lanes_same tx_init_done _ _ (event_env ev')),
          (all_lanes_same rx_init_done _ _ (event_env ev')); [reflexivity| |];
    intros i Hi; apply (Hflags i Hi).
Qed.

Lemma jesd_reset_depends_on_lanes_only_witness :
  exists locals phys_rx d,
    BaseSoC 125e6%float = Ok (locals, phys_rx) d /\
    forall r,
      rst (run 2 d [Level (fun _ => true)] r) !! "jesd"
      = rst (run 2 d [Level (fun s => match s with
                                      | tx_init_done _ | rx_init_done _ => true
                                      | _ => false
                                      end)] r) !! "jesd".
Proof.
  do 3 eexists. split; [vm_compute; reflexivity|].
  intros r.
  refine (jesd_reset_depends_on_lanes_only 2 125e6%float adc08dj_phy_rx_order
            _ _ _ _ _ r r _ _ _).
  - vm_compute. reflexivity.
  - split; reflexivity.
  - repeat constructor.
Defined.



(** X13 (reordering twice).  Reordering a lane array by one order list and
    the result by a second one is reordering the array once, by the first
    list reordered by the second; a faulting subscript on one side is a
    faulting subscript on the other. *)
Theorem reorder_twice {A : Type} (lanes l1 : list A) (o1 o2 : list Z) :
  apply_order lanes o1 = Some l1 ->
  apply_order l1 o2 = apply_order o1 o2 ≫= apply_order lanes.
Proof.
  intros H1. pose proof (mapM_Some_1 _ _ _ H1) as F1.
  pose proof (Forall2_length _ _ _ F1) as Hlen.
  unfold apply_order at 1 2.
  induction o2 as [|i o2 IH]; [reflexivity|].
  cbn.
  assert (Hi : from_option (fun x => py_getitem lanes x) None (py_getitem o1 i)
               = py_getitem l1 i).
  { unfold py_getitem. rewrite Hlen.
    destruct (Z.leb_spec 0 i); [|destruct (Z.leb_spec (- Z.of_nat (length l1)) i)];
      try reflexivity.
    - destruct (o1 !! Z.to_nat i) as [x|] eqn:Hx; cbn.
      + destruct (Forall2_lookup_l _ _ _ _ _ F1 Hx) as (y & -> & Hy). exact Hy.
      + symmetry. apply lookup_ge_None_2. apply lookup_ge_None_1 in Hx. lia.
    - destruct (o1 !! Z.to_nat (Z.of_nat (length l1) + i)) as [x|] eqn:Hx; cbn.
      + destruct (Forall2_lookup_l _ _ _ _ _ F1 Hx) as (y & -> & Hy). exact Hy.
      + symmetry. apply lookup_ge_None_2. apply lookup_ge_None_1 in Hx. lia. }
  rewrite <- Hi.
  destruct (py_getitem o1 i) as [x|]; cbn; [|reflexivity].
  rewrite IH. unfold apply_order.
  destruct (mapM (py_getitem o1) o2) as [o12|]; cbn.
  - destruct (py_getitem lanes x); reflexivity.
  - destruct (py_getitem lanes x); reflexivity.
Qed.

Lemma reorder_twice_witness :
  apply_order ["d"; "a"; "c"; "b"] [1; -1; 0; 2]%Z
  = apply_order adc08dj_phy_rx_order [1; -1; 0; 2]%Z
      ≫= apply_order ["a"; "b"; "c"; "d"].
Proof.
  apply (reorder_twice ["a"; "b"; "c"; "d"] ["d"; "a"; "c"; "b"]
           adc08dj_phy_rx_order [1; -1; 0; 2]%Z).
  reflexivity.
Defined.

Lemma eval_reduce_and_Permutation (env : Signal -> bool) (xs ys : list Expr) :
  Permutation xs ys -> forallb (eval env) xs = forallb (eval env) ys.
Proof.
  induction 1 as [|x l l' _ IH|x y l|l l' l'' _ IH1 _ IH2]; cbn.
  - reflexivity.
  - now rewrite IH.
  - rewrite !andb_assoc. f_equal. apply andb_comm.
  - now rewrite IH1.
Qed.

(** X15 (the reduction does not depend on the order of its operands).  If
    [reduce(and_, ...)] gives an expression on a list of one bit
    expressions, it gives one on every permutation of the list, and the two
    have the same value under every valuation. *)
Theorem reduce_and_permutation (xs ys : list Expr) (e : Expr) :
  Permutation xs ys ->
  reduce and_ xs = Some e ->
  exists e', reduce and_ ys = Some e' /\
             forall env, eval env e' = eval env e.
Proof.
  intros Hp He.
  destruct ys as [|y ys].
  - apply Permutation_sym, Permutation_nil in Hp. subst xs. discriminate He.
  - eexists. split; [reflexivity|]. intros env.
    rewrite (eval_reduce_and env _ _ He).
    rewrite (eval_reduce_and env (y :: ys) _ eq_refl).
    symmetry. now apply eval_reduce_and_Permutation.
Qed.

Lemma reduce_and_permutation_witness :
  exists e',
    reduce and_ [Sig (rx_init_done 1); Sig (rx_init_done 0)] = Some e' /\
    forall env,
      eval env e' = eval env (And (Sig (rx_init_done 0)) (Sig (rx_init_done 1))).
Proof.
  apply (reduce_and_permutation [Sig (rx_init_done 0); Sig (rx_init_done 1)]).
  - apply perm_swap.
  - reflexivity.
Defined.

Lemma platform_eq (p p' : Platform) :
  available p = available p' ->
  period_constraints p = period_constraints p' ->
  false_path_constraints p = false_path_constraints p' ->
  p = p'.
Proof. destruct p, p'; cbn; intros -> -> ->; reflexivity. Qed.

(** X14 (the order list reaches the core only).  Two order lists of the
    same length on which the constructor completes give descriptions with
    the same platform, clock domains, specials and combinatorial
    assignments, and the same submodules but for the lane array of
    [jesd_rx_core]. *)
Theorem order_changes_core_lanes_only (scf : float) (rx_order rx_order' : list Z)
    (locals locals' : JesdLocals) (phys_rx phys_rx' : list GTH4.t) (d d' : Design) :
  length rx_order = length rx_order' ->
  BaseSoC_with scf rx_order = Ok (locals, phys_rx) d ->
  BaseSoC_with scf rx_order' = Ok (locals', phys_rx') d' ->
  locals = locals' /\
  platform d = platform d' /\
  clock_domains d = clock_domains d' /\
  specials d = specials d' /\
  comb d = comb d' /\
  exists before after,
    submodules d = (before ++ ("jesd_rx_core",
                      LiteJESD204BCoreRX (rx_core locals phys_rx)) :: after)%list /\
    submodules d' = (before ++ ("jesd_rx_core",
                      LiteJESD204BCoreRX (rx_core locals phys_rx')) :: after)%list.
Proof.
  intros Hlen H H'.
  destruct (BaseSoC_with_Ok_description _ _ _ _ _ H)
    as (_ & _ & Hds & d1 & Ho & Hb & Hlk).
  destruct (BaseSoC_with_Ok_description _ _ _ _ _ H')
    as (_ & _ & Hds' & d1' & Ho' & Hb' & Hlk').
  rewrite <- Hlen in Ho', Hds'. rewrite Ho in Ho'. injection Ho' as <- <-.
  split; [reflexivity|]. split; [|split; [|split; [|split]]].
  - apply platform_eq.
    + now rewrite (ds_available _ _ _ _ _ Hds), (ds_available _ _ _ _ _ Hds').
    + now rewrite (lk_period _ _ _ _ _ Hlk), (lk_period _ _ _ _ _ Hlk').
    + now rewrite (ds_false_paths _ _ _ _ _ Hds), (ds_false_paths _ _ _ _ _ Hds').
  - now rewrite (lk_clock_domains _ _ _ _ _ Hlk), (lk_clock_domains _ _ _ _ _ Hlk').
  - now rewrite (lk_specials _ _ _ _ _ Hlk), (lk_specials _ _ _ _ _ Hlk').
  - now rewrite (lk_comb _ _ _ _ _ Hlk), (lk_comb _ _ _ _ _ Hlk').
  - rewrite (ds_submodules _ _ _ _ _ Hds), (ds_submodules _ _ _ _ _ Hds').
    exists (crg_submodules scf ++
            [("pll", USPMMCM jesd_mmcm);
             ("jesd_pll", GTH4QuadPLL refclk adc08dj_refclk_freq adc08dj_jesd_linerate)] ++
            map phy_submodule (jesd_phys locals))%list,
           [("jesd_rx_control", LiteJESD204BCoreControl "jesd_rx_core" scf)].
    rewrite <- !app_assoc. split; reflexivity.
Qed.

Lemma order_changes_core_lanes_only_witness :
  exists locals phys_rx phys_rx' d d',
    BaseSoC_with 125e6%float [3; 0; 2; 1]%Z = Ok (locals, phys_rx) d /\
    BaseSoC_with 125e6%float [0; 0; -1; 1]%Z = Ok (locals, phys_rx') d' /\
    platform d = platform d' /\ comb d = comb d'.
Proof.
  do 5 eexists. split; [vm_compute; reflexivity|]. split; [vm_compute; reflexivity|].
  refine ((fun H => conj (proj1 (proj2 H)) (proj1 (proj2 (proj2 (proj2 (proj2 H))))))
            (order_changes_core_lanes_only 125e6%float [3; 0; 2; 1]%Z [0; 0; -1; 1]%Z
               _ _ _ _ _ _ _ _ _)).
  - reflexivity.
  - vm_compute. reflexivity.
  - vm_compute. reflexivity.
Defined.





